(** * Microlesson generator: question configuration, prompt builder and
    content generator of [microlesson.py], embedded and verified.

    Conventions of the embedding:
    - a Python [int] is a [Z]; a Python [str] is a [string] holding the
      UTF-8 bytes of the text (substring search on the bytes of valid UTF-8
      agrees with substring search on code points);
    - [str(n)] and [f"{n}"] for an [int] are stdpp's [pretty] on [Z];
    - a Python dict with string keys is a [gmap string _];
    - effects (constructing a client, formatting the template, the request to
      the LLM library) are recorded in a trace, exceptions are values. *)

From Stdlib Require Import ZArith String Ascii List Lia.
From stdpp Require Import base strings gmap list pretty.

Open Scope Z_scope.

(** ** Exceptions *)

(** The exception classes the module can raise.  [ValidationError] is
    pydantic's, carrying the names of the offending fields; [LibraryError]
    stands for any [Exception] raised by the external LLM client, with
    [str(e)] as its payload. *)
Inductive exception : Type :=
  | ValueError (msg : string)
  | KeyError (key : string)
  | IndexError (msg : string)
  | ValidationError (fields : list string)
  | LibraryError (msg : string)
  | Exception (msg : string)
  | NotModelled (what : string).

(** The specification's names for the errors of the code. *)
Definition EmptyConfigurationError : exception :=
  ValueError "Question configuration must have at least one question. All question counts are 0.".
Definition MissingCredentialsError : exception :=
  ValueError "No API key found. Please configure OPENROUTER_API_KEY or CEREBRAS_API_KEY in secrets.toml or environment variables.".
Definition EmptyResponseError : exception :=
  ValueError "LLM returned empty or invalid response".
Definition InvalidConfigError (fields : list string) : exception :=
  ValidationError fields.

(** ** QuestionConfig *)

Record QuestionConfig : Type := mkQuestionConfig {
  mcq : Z;
  true_false : Z;
  fill_blank : Z;
  matching : Z;
  ordering : Z
}.

(** The five counts, in declaration order. *)
Definition counts (self : QuestionConfig) : list Z :=
  [mcq self; true_false self; fill_blank self; matching self; ordering self].

(** One field of the pydantic model: its name, its default and the [ge=0]
    constraint.  The constructor takes keyword arguments; a keyword that is
    absent takes the default (defaults are not validated, and are valid). *)
Definition field_value (kwargs : gmap string Z) (name : string) (dflt : Z) : Z :=
  default dflt (kwargs !! name).

Definition check_ge0 (name : string) (v : Z) : list string :=
  if v <? 0 then [name] else [].

(** The constructor called with keyword arguments: every field is validated, and the
    [ValidationError] lists all the fields that failed. *)
Definition QuestionConfig_new (kwargs : gmap string Z) : exception + QuestionConfig :=
  let v_mcq := field_value kwargs "mcq" 2 in
  let v_true_false := field_value kwargs "true_false" 2 in
  let v_fill_blank := field_value kwargs "fill_blank" 1 in
  let v_matching := field_value kwargs "matching" 0 in
  let v_ordering := field_value kwargs "ordering" 0 in
  let errors :=
    check_ge0 "mcq" v_mcq ++ check_ge0 "true_false" v_true_false ++
    check_ge0 "fill_blank" v_fill_blank ++ check_ge0 "matching" v_matching ++
    check_ge0 "ordering" v_ordering in
  match errors with
  | [] => inr (mkQuestionConfig v_mcq v_true_false v_fill_blank v_matching v_ordering)
  | _ :: _ => inl (ValidationError errors)
  end.

Definition total_questions (self : QuestionConfig) : Z :=
  mcq self + true_false self + fill_blank self + matching self + ordering self.

Definition to_prompt_string (self : QuestionConfig) : string :=
  let parts := [] in
  let parts := if 0 <? mcq self
               then parts ++ [pretty (mcq self) +:+ " Multiple Choice (MCQ)"] else parts in
  let parts := if 0 <? true_false self
               then parts ++ [pretty (true_false self) +:+ " True/False"] else parts in
  let parts := if 0 <? fill_blank self
               then parts ++ [pretty (fill_blank self) +:+ " Fill in the Blank"] else parts in
  let parts := if 0 <? matching self
               then parts ++ [pretty (matching self) +:+ " Matching"] else parts in
  let parts := if 0 <? ordering self
               then parts ++ [pretty (ordering self) +:+ " Ordering"] else parts in
  String.concat ", " parts.

(** The distribution string as the specification words it: the counts paired
    with their labels in the fixed order, the zero counts dropped, each entry
    rendered as "<count> <Label>", joined with ", ". *)
Definition labelled_counts (self : QuestionConfig) : list (Z * string) :=
  [ (mcq self, "Multiple Choice (MCQ)");
    (true_false self, "True/False");
    (fill_blank self, "Fill in the Blank");
    (matching self, "Matching");
    (ordering self, "Ordering") ].

Definition entry (p : Z * string) : string := pretty p.1 +:+ " " +:+ p.2.

Definition distribution_string_spec (self : QuestionConfig) : string :=
  String.concat ", " (entry <$> filter (λ p, p.1 ≠ 0) (labelled_counts self)).

(** ** Strings as Python uses them *)

(** [needle in hay]. *)
Fixpoint str_in (needle hay : string) : bool :=
  String.prefix needle hay ||
  match hay with
  | EmptyString => false
  | String _ hay' => str_in needle hay'
  end.

(** The same, as a proposition. *)
Definition contains (needle hay : string) : Prop :=
  ∃ pre post, hay = pre +:+ needle +:+ post.

(** [str.lower], as far as ASCII characters go.  The ASCII capitals are
    lowered; of the other characters, two have a lower case that holds an
    ASCII letter: the capital I with a dot above (U+0130, bytes 196 176),
    which becomes i followed by the combining dot (U+0307, bytes 204 135),
    and the Kelvin sign (U+212A, bytes 226 132 170), which becomes k.  Python
    lowers other letters too (an accented capital, a Greek or Cyrillic one);
    their lower case has no ASCII byte.  The embedding keeps those characters
    as they are: the code searches the result for ASCII words only, and such
    a search does not tell the difference. *)
Definition lower_ascii (c : ascii) : ascii :=
  let n := nat_of_ascii c in
  if ((65 <=? n) && (n <=? 90))%nat then ascii_of_nat (n + 32) else c.

Definition is_byte (n : nat) (c : ascii) : bool := (nat_of_ascii c =? n)%nat.

Fixpoint lower (s : string) : string :=
  match s with
  | EmptyString => EmptyString
  | String c s1 =>
      match s1 with
      | EmptyString => String (lower_ascii c) EmptyString
      | String c1 s2 =>
          if is_byte 196 c && is_byte 176 c1 then
            String "i" (String (ascii_of_nat 204) (String (ascii_of_nat 135) (lower s2)))
          else
            match s2 with
            | EmptyString => String (lower_ascii c) (lower s1)
            | String c2 s3 =>
                if is_byte 226 c && is_byte 132 c1 && is_byte 170 c2
                then String "k" (lower s3)
                else String (lower_ascii c) (lower s1)
            end
      end
  end.

(** Truth value of a [str]: non-empty. *)
Definition str_bool (s : string) : bool :=
  match s with
  | EmptyString => false
  | String _ _ => true
  end.

(** ** [str.format] with keyword arguments *)

(** The arguments the prompt builder passes: text, or an integer rendered in
    decimal by the empty format specification. *)
Inductive fmt_arg : Type :=
  | ArgStr (s : string)
  | ArgInt (n : Z).

Definition format_value (a : fmt_arg) : string :=
  match a with
  | ArgStr s => s
  | ArgInt n => pretty n
  end.

(** The format string is cut into chunks from left to right: a literal
    character, a replacement field, or the error at the place where the
    markup is malformed.  The doubled braces are the escapes for a brace. *)
Inductive chunk : Type :=
  | Literal (c : ascii)
  | Replacement (field_name : string)
  | Malformed (e : exception).

(** Characters that start a conversion, a format specification, an
    attribute or index lookup or a nested field inside a field; the
    embedding stops at them. *)
Definition field_operator (c : ascii) : bool :=
  (c =? "!")%char || (c =? ":")%char || (c =? ".")%char || (c =? "[")%char
  || (c =? "{")%char.

Fixpoint markup (field : option string) (s : string) : list chunk :=
  match s with
  | EmptyString =>
      match field with
      | None => []
      | Some _ => [Malformed (ValueError "expected '}' before end of string")]
      end
  | String c rest =>
      match field with
      | None =>
          if (c =? "{")%char then
            match rest with
            | EmptyString =>
                [Malformed (ValueError "Single '{' encountered in format string")]
            | String c' rest' =>
                if (c' =? "{")%char then Literal c :: markup None rest'
                else markup (Some EmptyString) rest
            end
          else if (c =? "}")%char then
            match rest with
            | EmptyString =>
                [Malformed (ValueError "Single '}' encountered in format string")]
            | String c' rest' =>
                if (c' =? "}")%char then Literal c :: markup None rest'
                else [Malformed (ValueError "Single '}' encountered in format string")]
            end
          else Literal c :: markup None rest
      | Some name =>
          if (c =? "}")%char then Replacement name :: markup None rest
          else if field_operator c then
            [Malformed (NotModelled "conversion, format specification, lookup or brace in a field")]
          else markup (Some (name +:+ String c EmptyString)) rest
      end
  end.

Definition is_digit (c : ascii) : bool :=
  let n := nat_of_ascii c in ((48 <=? n) && (n <=? 57))%nat.

Fixpoint all_digits (s : string) : bool :=
  match s with
  | EmptyString => true
  | String c s' => is_digit c && all_digits s'
  end.

(** The value of a field.  No positional arguments are passed, so an empty
    name (automatic numbering) has nothing to index; a numeric name is a
    positional index as well. *)
Definition get_value (kwargs : gmap string fmt_arg) (name : string) : exception + fmt_arg :=
  match name with
  | EmptyString =>
      inl (IndexError "Replacement index 0 out of range for positional args tuple")
  | String _ _ =>
      if all_digits name then inl (NotModelled "positional replacement field")
      else match kwargs !! name with
           | Some v => inr v
           | None => inl (KeyError name)
           end
  end.

Fixpoint render (kwargs : gmap string fmt_arg) (cs : list chunk) : exception + string :=
  match cs with
  | [] => inr EmptyString
  | Literal c :: cs' =>
      match render kwargs cs' with
      | inr out => inr (String c out)
      | inl e => inl e
      end
  | Replacement name :: cs' =>
      match get_value kwargs name with
      | inl e => inl e
      | inr v =>
          match render kwargs cs' with
          | inr out => inr (format_value v +:+ out)
          | inl e => inl e
          end
      end
  | Malformed e :: _ => inl e
  end.

(** A chunk that renders: a literal, or a field whose value is found. *)
Definition chunk_ok (kwargs : gmap string fmt_arg) (ch : chunk) : Prop :=
  match ch with
  | Literal _ => True
  | Replacement name => ∃ v, get_value kwargs name = inr v
  | Malformed _ => False
  end.

Definition str_format (template : string) (kwargs : gmap string fmt_arg) : exception + string :=
  render kwargs (markup None template).

(** ** The prompt template *)

Definition dq : string := String (ascii_of_nat 34) EmptyString.
Definition newline : string := String (ascii_of_nat 10) EmptyString.

(** [DYNAMIC_PROMPT_TEMPLATE], line by line; the text starts and ends with a
    line break. *)
Definition DYNAMIC_PROMPT_TEMPLATE_lines : list string := [
  "";
  "You are creating bite-sized learning content for Unrot, a mobile-first learning app where people spend 5 minutes learning something new every day. The content must compete with social media for attention—it should be vivid, clear, and feel like a rewarding, relevant conversation.";
  "";
  "Input:";
  "Topic: {topic}";
  "Concept: {concept}";
  "Concept Description: {concept_description}";
  "";
  "IMPORTANT: Understanding the Concept Description";
  ("The " +:+ dq +:+ "Concept Description" +:+ dq +:+ " is a teaser/hook—not the full scope of what should be covered. It sparks curiosity, but your job is to ensure readers walk away feeling, " +:+ dq +:+ "Whoa, I actually get this now!" +:+ dq +:+ " Your content should deliver:");
  "A multi-faceted, well-rounded understanding of the concept";
  "Relatable stories, analogies, or humor (no pop culture reference needed)";
  ("Instant, practical " +:+ dq +:+ "aha" +:+ dq +:+ " moments—why does this really matter to people?");
  "Concrete, varied examples (not just textbook cases)";
  "Intuitive explanations that anyone can relate to";
  ("Answers to the " +:+ dq +:+ "So what?" +:+ dq +:+ " behind the idea");
  "";
  "Content Structure to Generate";
  "";
  "1. PRE-READ (The Hook & Revelation)";
  "Goal: Excite the reader and give them a solid, memorable understanding of the concept.";
  "Requirements:";
  "Length: 250–350 words max—fits comfortably on one phone screen, no endless scrolling";
  "Tone: Imagine explaining something cool to a friend over a cup of chai—energetic, clear, never patronizing or stuffy";
  "Structure:";
  "Start with a story, everyday scenario, playful analogy, or a question that grabs curiosity in the first line.";
  ("Speaks directly to the reader (" +:+ dq +:+ "you," +:+ dq +:+ " " +:+ dq +:+ "we" +:+ dq +:+ "), inviting them into a conversation.");
  "Unpack why this concept shows up everywhere and why it matters—cut to the heart, use humor or surprise.";
  "Explain using real-world examples drawn from different domains (media, daily life, business, etc.).";
  "Every piece of jargon is instantly disarmed with a plain-English translation—no one's left behind.";
  "Anticipate common questions and address them (sometimes as a rhetorical Q&A within the text).";
  ("Insert at least one " +:+ dq +:+ "aha!" +:+ dq +:+ " insight or offbeat perspective—a fact, metaphor, or counterintuitive angle that makes readers pause and smile.");
  "Keep paragraphs and sentences short and punchy—never a wall of text.";
  "What to Avoid:";
  "Don't just retell the concept description—expand, contextualize, and bring it alive";
  "Don't over-focus on one example; always show variety and surprise";
  "Don't use unexplained jargon; always break it down with analogies or humor";
  "Writing Style Guidance:";
  ("Use " +:+ dq +:+ "you" +:+ dq +:+ "/" +:+ dq +:+ "we" +:+ dq +:+ " to make it direct and personal");
  "Every section should feel like a fun, illuminating chat—not a dry lecture or a listicle";
  "";
  "2. QUESTIONS (Test, Teach, Entertain)";
  "Goal: Spark new discoveries—questions should teach as much as they test.";
  "Requirements:";
  "Generate EXACTLY {total_questions} questions with the following distribution:";
  "{question_distribution}";
  "";
  "QUESTION TYPE DETAILS:";
  "";
  "A) MULTIPLE CHOICE (MCQ):";
  "   - Traditional 4-option question";
  "   - Best for: scenarios, problem-solving, application";
  "   - Keep mobile-friendly: max 2 sentences, options under 15 words";
  "   - All wrong answers should be plausible";
  "";
  "B) TRUE/FALSE:";
  "   - Single statement to judge as true or false";
  "   - Best for: testing misconceptions, common myths, key facts";
  "   - Make it thought-provoking, not obvious";
  "";
  "C) FILL IN THE BLANK:";
  "   - Sentence with one _____ to complete";
  "   - Provide the correct answer + 3 plausible distractors";
  "   - Best for: terminology, key concepts, definitions";
  "   - Make the blank meaningful, not trivial";
  "   - IMPORTANT: Only use ONE blank per question";
  "";
  "D) MATCHING:";
  "   - 3-4 pairs to match (left item to right item)";
  "   - Best for: definitions, relationships, comparisons";
  "   - Keep each item short (under 10 words)";
  "";
  "E) ORDERING/SEQUENCING:";
  "   - 3-4 items to put in correct order";
  "   - Best for: processes, steps, chronology, priority";
  "   - Items should be clear and distinct";
  "";
  "Each question:";
  "Tests core understanding of the concept";
  "Reveals a fresh use-case, fact, or application not already covered";
  "Avoids trickery—every question is a chance to reveal another angle";
  "Include for each:";
  "Question text (friendly, sometimes informal or story-driven)";
  "Options or expected answer format";
  "Correct answer";
  "Explanation that unpacks why this answer is right, brings in a misconception (if any), and adds a nugget of insight or analogy";
  "";
  "3. SUMMARY";
  "Goal: Leave readers with 3–5 pithy, memorable takeaways they can quickly recall and share.";
  "Requirements:";
  ("Each bullet is concise (1–2 sentences), practical, and (where possible) tied to an analogy, daily life, or " +:+ dq +:+ "so what" +:+ dq +:+ " impact.");
  "";
  "4. TAGS (Optional but Recommended)";
  "Goal: Discovery and connection—help users relate this lesson to others.";
  "Requirements:";
  "3–5 relevant tags (concepts, applications, difficulty level, cross-topic ties)";
  "";
  "Quality Checklist";
  "Before finalizing, verify:";
  " Pre-read is engaging from line one—feels like a conversation, not a textbook";
  " Fits one mobile screen (250–350 words)";
  (" Multiple real-world examples, humor/analogies, and at least one " +:+ dq +:+ "aha" +:+ dq +:+ " fact or angle (pop culture not required)");
  " All jargon is demystified";
  " EXACTLY {total_questions} questions provided with the specified distribution";
  " Questions entertain and expand knowledge";
  " Each question's explanation includes a story or extra insight";
  " Bullet summary makes key takeaways scannable and applicable";
  " The whole lesson is as fun and rewarding as scrolling your favorite news or meme page";
  "";
  "Creator Notes:";
  "Mobile-first focus!";
  "Every line competes for attention";
  (dq +:+ "Friend test" +:+ dq +:+ ": Would you enjoy explaining this out loud to someone who didn't ask?");
  (dq +:+ "Scroll test" +:+ dq +:+ ": Is it so clear, punchy, and relevant you'd share it in a WhatsApp group?");
  (dq +:+ "So What?" +:+ dq +:+ ": Ensure at least one practical or perspective-changing takeaway");
  ""
].

Definition DYNAMIC_PROMPT_TEMPLATE : string :=
  String.concat newline DYNAMIC_PROMPT_TEMPLATE_lines.

(** ** Response models *)

Record MCQOption : Type := { opt_text : string; opt_correct : bool }.
Record MatchingPair : Type := { left : string; right : string }.

(** The union of the five question models, each tagged with its
    [question_type] and carrying its explanation. *)
Inductive Question : Type :=
  | MCQQuestion (question_text : string) (options : list MCQOption) (explanation : string)
  | FillInBlankQuestion (question_text correct_answer : string)
      (distractors : list string) (explanation : string)
  | TrueFalseQuestion (statement : string) (correct_answer : bool) (explanation : string)
  | MatchingQuestion (instruction : string) (pairs : list MatchingPair) (explanation : string)
  | OrderingQuestion (question_text : string) (correct_order : list string)
      (explanation : string).

Definition question_type (q : Question) : string :=
  match q with
  | MCQQuestion _ _ _ => "mcq"
  | FillInBlankQuestion _ _ _ _ => "fill_blank"
  | TrueFalseQuestion _ _ _ => "true_false"
  | MatchingQuestion _ _ _ => "matching"
  | OrderingQuestion _ _ _ => "ordering"
  end.

Record BiteSizedContent : Type := {
  pre_read : string;
  questions : list Question;
  summary : list string;
  tags : list string;
  concept_name : string;
  topic : string;
  estimated_time : Z;
  difficulty_level : string
}.

(** What the LLM library may hand back: [None], an instance of the response
    model, or some other object, of which only its truth value and the names
    of its attributes matter here. *)
Inductive py_object : Type :=
  | PyNone
  | PyContent (content : BiteSizedContent)
  | PyOther (truth : bool) (attrs : list string).

(** [bool(obj)]: a pydantic model defines neither [__bool__] nor [__len__]. *)
Definition py_bool (o : py_object) : bool :=
  match o with
  | PyNone => false
  | PyContent _ => true
  | PyOther truth _ => truth
  end.

(** The attributes the class declares: its fields and its method. *)
Definition BiteSizedContent_attrs : list string :=
  ["pre_read"; "questions"; "summary"; "tags"; "concept_name"; "topic";
   "estimated_time"; "difficulty_level"; "show"].

Definition hasattr (o : py_object) (name : string) : bool :=
  match o with
  | PyNone => false
  | PyContent _ => bool_decide (name ∈ BiteSizedContent_attrs)
  | PyOther _ attrs => bool_decide (name ∈ attrs)
  end.

(** ** Effects *)

Record ChatOpenAI : Type := {
  model : string;
  openai_api_key : string;
  openai_api_base : string
}.

(** The arguments of [client.qna_engine.generate_questions]; the response
    model is always [BiteSizedContent]. *)
Record GenerateRequest : Type := {
  rq_client : ChatOpenAI;
  rq_topic : string;
  rq_concept : string;
  rq_num : Z;
  rq_prompt_template : string
}.

Inductive event : Type :=
  | EvChatOpenAI (llm : ChatOpenAI)
  | EvEduchain (llm : ChatOpenAI)
  | EvFormat
  | EvGenerateQuestions (rq : GenerateRequest).

(** A computation: the trace of what it did, and an exception or a value. *)
Definition M (A : Type) : Type := list event * (exception + A).

#[global] Instance M_ret : MRet M := λ A a, ([], inr a).
#[global] Instance M_bind : MBind M := λ A B f m,
  match m with
  | (tr, inl e) => (tr, inl e)
  | (tr, inr a) => let '(tr', r) := f a in (tr ++ tr', r)
  end.

Definition raise {A : Type} (e : exception) : M A := ([], inl e).
Definition emit (ev : event) : M unit := ([ev], inr tt).
Definition liftE {A : Type} (r : exception + A) : M A := ([], r).

(** [try: body except Exception as e: handler e]. *)
Definition try_except {A : Type} (body : M A) (handler : exception → M A) : M A :=
  match body with
  | (tr, inl e) => let '(tr', r) := handler e in (tr ++ tr', r)
  | (tr, inr a) => (tr, inr a)
  end.

(** [str(e)]; for pydantic's error, the first line of its message. *)
Definition str_exc (e : exception) : string :=
  match e with
  | ValueError msg | IndexError msg | LibraryError msg | Exception msg
  | NotModelled msg => msg
  | KeyError key => "'" +:+ key +:+ "'"
  | ValidationError fields =>
      pretty (Z.of_nat (length fields))
        +:+ (if decide (length fields = 1%nat) then " validation error"
             else " validation errors")
        +:+ " for QuestionConfig"
  end.

(** The world outside: the secrets store ([None] when reading it raises),
    the process environment, and the reply of the LLM library to a request
    (the text of the exception it raises, or the object it returns). *)
Record World : Type := {
  secrets : option (gmap string string);
  environ : gmap string string;
  llm_reply : GenerateRequest → string + py_object
}.

(** ** The prompt builder *)

Definition prompt_kwargs (topic concept concept_description : string)
    (question_config : QuestionConfig) : gmap string fmt_arg :=
  <["topic" := ArgStr topic]>
  (<["concept" := ArgStr concept]>
  (<["concept_description" := ArgStr concept_description]>
  (<["total_questions" := ArgInt (total_questions question_config)]>
  (<["question_distribution" := ArgStr (to_prompt_string question_config)]> ∅)))).

Definition generate_content_prompt (topic concept concept_description : string)
    (question_config : option QuestionConfig) : M string :=
  question_config ←
    match question_config with
    | None => liftE (QuestionConfig_new ∅)
    | Some cfg => mret cfg
    end;
  if total_questions question_config =? 0 then raise EmptyConfigurationError
  else
    emit EvFormat;;
    liftE (str_format DYNAMIC_PROMPT_TEMPLATE
             (prompt_kwargs topic concept concept_description question_config)).

(** ** The content generator *)

Definition get_api_key (w : World) : string * string :=
  match secrets w with
  | Some s =>
      let openrouter_key := default "" (s !! "OPENROUTER_API_KEY") in
      let cerebras_key := default "" (s !! "CEREBRAS_API_KEY") in
      (openrouter_key, cerebras_key)
  | None =>
      let openrouter_key := default "" (environ w !! "OPENROUTER_API_KEY") in
      let cerebras_key := default "" (environ w !! "CEREBRAS_API_KEY") in
      (openrouter_key, cerebras_key)
  end.

Definition new_ChatOpenAI (model openai_api_key openai_api_base : string) : M ChatOpenAI :=
  let llm := {| model := model; openai_api_key := openai_api_key;
                openai_api_base := openai_api_base |} in
  emit (EvChatOpenAI llm);; mret llm.

Definition new_Educhain (custom_model : ChatOpenAI) : M ChatOpenAI :=
  emit (EvEduchain custom_model);; mret custom_model.

Definition generate_questions (w : World) (rq : GenerateRequest) : M py_object :=
  emit (EvGenerateQuestions rq);;
  match llm_reply w rq with
  | inl msg => raise (LibraryError msg)
  | inr result => mret result
  end.

(** The handler of the [except] clause: the message, with a hint chosen by
    the words found in it. *)
Definition error_message (e : exception) : string :=
  let error_msg := "Error in content generation: " +:+ str_exc e in
  if str_in "validation error" (lower (str_exc e)) then
    error_msg
      +:+ String (ascii_of_nat 10) (String (ascii_of_nat 10) EmptyString)
      +:+ "This usually means the LLM didn't return properly formatted content. "
      +:+ "Please check your API key and try again."
  else if str_in "api" (lower (str_exc e)) then
    error_msg
      +:+ String (ascii_of_nat 10) (String (ascii_of_nat 10) EmptyString)
      +:+ "This appears to be an API-related error. "
      +:+ "Please check your API key and internet connection."
  else error_msg.

Definition generate_learning_content (w : World)
    (topic concept concept_description : string)
    (question_config : option QuestionConfig) : M py_object :=
  let '(openrouter_key, cerebras_key) := get_api_key w in
  deepseek_terminus ←
    (if str_bool openrouter_key then
       new_ChatOpenAI "anthropic/claude-sonnet-4.5" openrouter_key
         "https://openrouter.ai/api/v1"
     else if str_bool cerebras_key then
       new_ChatOpenAI "qwen-3-235b-a22b-thinking-2507" cerebras_key
         "https://api.cerebras.ai/v1"
     else raise MissingCredentialsError);
  client ← new_Educhain deepseek_terminus;
  question_config ←
    match question_config with
    | None => liftE (QuestionConfig_new ∅)
    | Some cfg => mret cfg
    end;
  prompt ← generate_content_prompt topic concept concept_description (Some question_config);
  try_except
    (result ← generate_questions w
       {| rq_client := client; rq_topic := topic; rq_concept := concept;
          rq_num := total_questions question_config; rq_prompt_template := prompt |};
     if negb (py_bool result) || negb (hasattr result "pre_read")
     then raise EmptyResponseError
     else mret result)
    (λ e, raise (Exception (error_message e))).

(** The five placeholders of the template, and the check that a chunk of it
    is a literal or one of them. *)
Definition template_fields : list string :=
  ["topic"; "concept"; "concept_description"; "total_questions";
   "question_distribution"].

Definition is_field (name : string) (ch : chunk) : bool :=
  match ch with
  | Replacement name' => bool_decide (name' = name)
  | _ => false
  end.

Definition template_chunk (ch : chunk) : bool :=
  match ch with
  | Literal _ => true
  | Replacement name => bool_decide (name ∈ template_fields)
  | Malformed _ => false
  end.

(** ** Vocabulary of the statements *)

(** The values the constructor validates, in declaration order. *)
Definition constructor_counts (kwargs : gmap string Z) : list Z :=
  [field_value kwargs "mcq" 2; field_value kwargs "true_false" 2;
   field_value kwargs "fill_blank" 1; field_value kwargs "matching" 0;
   field_value kwargs "ordering" 0].

(** The two backends of [generate_learning_content]. *)
Definition openrouter_llm (key : string) : ChatOpenAI :=
  {| model := "anthropic/claude-sonnet-4.5"; openai_api_key := key;
     openai_api_base := "https://openrouter.ai/api/v1" |}.

Definition cerebras_llm (key : string) : ChatOpenAI :=
  {| model := "qwen-3-235b-a22b-thinking-2507"; openai_api_key := key;
     openai_api_base := "https://api.cerebras.ai/v1" |}.

(** The clients constructed and the requests sent, read off a trace. *)
Definition clients_in (tr : list event) : list ChatOpenAI :=
  omap (λ ev, match ev with EvChatOpenAI llm => Some llm | _ => None end) tr.

Definition requests_in (tr : list event) : list GenerateRequest :=
  omap (λ ev, match ev with EvGenerateQuestions rq => Some rq | _ => None end) tr.

(** The request the generator sends. *)
Definition request_of (llm : ChatOpenAI) (topic concept : string)
    (cfg : QuestionConfig) (prompt : string) : GenerateRequest :=
  {| rq_client := llm; rq_topic := topic; rq_concept := concept;
     rq_num := total_questions cfg; rq_prompt_template := prompt |}.

(** The check made on the object the LLM library returns. *)
Definition accepted (result : py_object) : bool :=
  py_bool result && hasattr result "pre_read".

(** What the caller gets once the request is sent: the closed form of the
    [try] block and its handler. *)
Definition reply_outcome (w : World) (rq : GenerateRequest) : exception + py_object :=
  match llm_reply w rq with
  | inl msg => inl (Exception (error_message (LibraryError msg)))
  | inr result =>
      if accepted result then inr result
      else inl (Exception (error_message EmptyResponseError))
  end.

(** The configuration used when the argument is [None] or given. *)
Definition config_or_default (question_config : option QuestionConfig) : QuestionConfig :=
  default (mkQuestionConfig 2 2 1 0 0) question_config.

(** Two concrete worlds with the fallback credential in the environment:
    in the first the LLM library returns a lesson whose [pre_read] is the
    empty text, in the second it returns [None]. *)
Definition empty_lesson : BiteSizedContent :=
  {| pre_read := ""; questions := []; summary := []; tags := [];
     concept_name := "Growth Mindset"; topic := "Psychology";
     estimated_time := 5; difficulty_level := "beginner" |}.

Definition world_empty_lesson : World :=
  {| secrets := None;
     environ := {["CEREBRAS_API_KEY" := "csk"]};
     llm_reply := λ _, inr (PyContent empty_lesson) |}.

Definition world_none : World :=
  {| secrets := None;
     environ := {["CEREBRAS_API_KEY" := "csk"]};
     llm_reply := λ _, inr PyNone |}.

(** The names of the fields that fail validation, in declaration order, as
    a filter over the validated values. *)
Definition negative_fields (kwargs : gmap string Z) : list string :=
  (filter (λ p, p.2 < 0)
     [("mcq", field_value kwargs "mcq" 2);
      ("true_false", field_value kwargs "true_false" 2);
      ("fill_blank", field_value kwargs "fill_blank" 1);
      ("matching", field_value kwargs "matching" 0);
      ("ordering", field_value kwargs "ordering" 0)]).*1.

(** The literal characters of a chunk list, counted, and its replacement
    fields in order of occurrence. *)
Fixpoint literal_count (cs : list chunk) : Z :=
  match cs with
  | [] => 0
  | Literal _ :: cs' => 1 + literal_count cs'
  | _ :: cs' => literal_count cs'
  end.

Fixpoint fields_of (cs : list chunk) : list string :=
  match cs with
  | [] => []
  | Replacement name :: cs' => name :: fields_of cs'
  | _ :: cs' => fields_of cs'
  end.

(** Length of a text in bytes. *)
Definition len (s : string) : Z := Z.of_nat (String.length s).

(** The two hints of the [except] clause. *)
Definition validation_hint : string :=
  String (ascii_of_nat 10) (String (ascii_of_nat 10) EmptyString)
    +:+ "This usually means the LLM didn't return properly formatted content. "
    +:+ "Please check your API key and try again.".

Definition api_hint : string :=
  String (ascii_of_nat 10) (String (ascii_of_nat 10) EmptyString)
    +:+ "This appears to be an API-related error. "
    +:+ "Please check your API key and internet connection.".

(** * The application, [app.py] *)

(** ** Session and page *)

(** An error of the application: an attribute that an object lacks, a
    failure to read the secrets store other than a missing file, or an
    exception of [microlesson.py]. *)
Inductive app_error : Type :=
  | AttributeError (class attr : string)
  | SecretsError
  | Raised (e : exception).

(** What a run puts on the page, in order: an output call with its text, an
    input widget with its label (its value is an argument of the model), the
    page configuration, the traceback shown in the expander (its text is not
    modelled), and the events of the generator. *)
Inductive st_call : Type :=
  | StPageConfig (page_title page_icon layout initial_sidebar_state : string)
  | StOutput (func text : string)
  | StInput (func label : string)
  | StTraceback
  | StGenerator (ev : event).

(** [st.session_state]: a key is absent ([None]) or holds a value. *)
Record SessionState : Type := {
  generated_content : option py_object;
  api_configured : option bool
}.

Definition init_session_state (ss : SessionState) : SessionState :=
  let ss := match generated_content ss with
            | None => {| generated_content := Some PyNone;
                         api_configured := api_configured ss |}
            | Some _ => ss
            end in
  match api_configured ss with
  | None => {| generated_content := generated_content ss;
               api_configured := Some false |}
  | Some _ => ss
  end.

(** [check_api_configuration]: only the secrets store is read; of the
    failures to read it, only the missing file is caught. *)
Definition check_api_configuration (w : World) (file_missing : bool)
    (ss : SessionState) : SessionState * (app_error + bool) :=
  match secrets w with
  | Some store =>
      let openrouter_key := default "" (store !! "OPENROUTER_API_KEY") in
      let cerebras_key := default "" (store !! "CEREBRAS_API_KEY") in
      if str_bool openrouter_key || str_bool cerebras_key then
        ({| generated_content := generated_content ss;
            api_configured := Some true |}, inr true)
      else (ss, inr false)
  | None => if file_missing then (ss, inr false) else (ss, inl SecretsError)
  end.

Definition api_setup_markdown : string :=
  String.concat newline [
    "";
    "    To use this app, you need to set up an API key in Streamlit secrets:";
    "    ";
    "    **Step 1:** Create a `.streamlit` folder in your project directory";
    "    ```bash";
    "    mkdir .streamlit";
    "    ```";
    "    ";
    "    **Step 2:** Create a `secrets.toml` file in the `.streamlit` folder";
    "    ```bash";
    "    touch .streamlit/secrets.toml";
    "    ```";
    "    ";
    "    **Step 3:** Add one of these API keys to `.streamlit/secrets.toml`:";
    "    ";
    "    **Option 1: OpenRouter API**";
    "    ```toml";
    ("    OPENROUTER_API_KEY = " +:+ dq +:+ "your_openrouter_key_here" +:+ dq);
    "    ```";
    "    ";
    "    **Option 2: Cerebras API**";
    "    ```toml";
    ("    CEREBRAS_API_KEY = " +:+ dq +:+ "your_cerebras_key_here" +:+ dq);
    "    ```";
    "    ";
    "    After creating the secrets file, restart this Streamlit app.";
    "    ";
    "    **Note:** Make sure to add `.streamlit/secrets.toml` to your `.gitignore` file to keep your API keys secure!";
    "    "
  ].

Definition display_api_setup : list st_call :=
  [StOutput "error" "🔑 API Configuration Required";
   StOutput "markdown" api_setup_markdown].

(** ** The sidebar *)

(** The values of the sidebar's widgets. *)
Record SidebarInput : Type := {
  in_topic : string;
  in_concept : string;
  in_concept_description : string;
  in_mcq : Z;
  in_true_false : Z;
  in_fill_blank : Z;
  in_matching : Z;
  in_ordering : Z
}.

(** What a number input can return: a value between its bounds. *)
Definition widget_bounds (inp : SidebarInput) : Prop :=
  0 ≤ in_mcq inp ≤ 10 ∧ 0 ≤ in_true_false inp ≤ 10 ∧ 0 ≤ in_fill_blank inp ≤ 10 ∧
  0 ≤ in_matching inp ≤ 5 ∧ 0 ≤ in_ordering inp ≤ 5.

Definition sidebar_widgets : list st_call :=
  [StOutput "sidebar.title" "🎯 MicroLesson Configuration";
   StOutput "sidebar.markdown" "### 📚 Content Details";
   StInput "sidebar.text_input" "Topic";
   StInput "sidebar.text_input" "Concept";
   StInput "sidebar.text_area" "Concept Description";
   StOutput "sidebar.markdown" "### 🎲 Question Configuration";
   StInput "sidebar.number_input" "Multiple Choice Questions";
   StInput "sidebar.number_input" "True/False Questions";
   StInput "sidebar.number_input" "Fill in the Blank Questions";
   StInput "sidebar.number_input" "Matching Questions";
   StInput "sidebar.number_input" "Ordering Questions"].

Definition sidebar_kwargs (inp : SidebarInput) : gmap string Z :=
  list_to_map [("mcq", in_mcq inp); ("true_false", in_true_false inp);
               ("fill_blank", in_fill_blank inp); ("matching", in_matching inp);
               ("ordering", in_ordering inp)].

(** [create_sidebar]: [None] stands for the tuple of four [None]. *)
Definition create_sidebar (inp : SidebarInput)
    : list st_call * (app_error + option (string * string * string * QuestionConfig)) :=
  match QuestionConfig_new (sidebar_kwargs inp) with
  | inl e => (sidebar_widgets, inl (Raised e))
  | inr question_config =>
      let total_questions := total_questions question_config in
      if total_questions =? 0 then
        (sidebar_widgets ++ [StOutput "sidebar.error" "⚠️ Please select at least one question type!"], inr None)
      else
        (sidebar_widgets ++
           [StOutput "sidebar.success" ("✅ Total Questions: " +:+ pretty total_questions);
            StOutput "sidebar.markdown"
              ("**Distribution:** " +:+ to_prompt_string question_config)],
         inr (Some (in_topic inp, in_concept inp, in_concept_description inp,
                    question_config)))
  end.

(** ** The generation step of [main] *)

(** How a run of [main] ends before the stored lesson is displayed. *)
Inductive main_exit : Type :=
  | ExitSetup
  | ExitSidebar
  | ExitFailed
  | ToDisplay.

(** The tip shown under the error, chosen by the words of the message. *)
Definition error_tip (e : exception) : string :=
  if str_in "validation error" (lower (str_exc e)) then "💡 **Tip**: This usually means the LLM response wasn't properly formatted. Try again in a moment."
  else if str_in "api" (lower (str_exc e)) || str_in "key" (lower (str_exc e)) then
    "💡 **Tip**: Check your API key configuration in `.streamlit/secrets.toml`"
  else "💡 **Tip**: Check your internet connection and try again.".

(** [main], from its start to the end of the generation step; what follows
    in the source displays the stored lesson and is not part of this
    definition.  [generate_clicked] is the value of the sidebar's button. *)
Definition main (w : World) (file_missing : bool) (inp : SidebarInput)
    (generate_clicked : bool) (ss : SessionState)
    : SessionState * list st_call * (app_error + main_exit) :=
  let header :=
    [StPageConfig "MicroLesson Generator" "📚" "wide" "expanded";
     StOutput "title" "📚 MicroLesson Generator";
     StOutput "markdown" "Create bite-sized learning content with interactive questions using AI";
     StOutput "markdown" "---"] in
  let ss := init_session_state ss in
  match check_api_configuration w file_missing ss with
  | (ss, inl e) => (ss, header, inl e)
  | (ss, inr false) => (ss, header ++ display_api_setup, inr ExitSetup)
  | (ss, inr true) =>
      match create_sidebar inp with
      | (sidebar, inl e) => (ss, header ++ sidebar, inl e)
      | (sidebar, inr None) =>
          (ss, header ++ sidebar ++ [StOutput "warning" "⚠️ Please configure your question settings in the sidebar."], inr ExitSidebar)
      | (sidebar, inr (Some (topic, concept, concept_description, question_config))) =>
          let page := header ++ sidebar ++ [StInput "sidebar.button" "🚀 Generate MicroLesson"] in
          if generate_clicked then
            let page := page ++ [StOutput "spinner" "🧠 Generating your personalized MicroLesson..."] in
            match generate_learning_content w topic concept concept_description
                    (Some question_config) with
            | (tr, inr content) =>
                ({| generated_content := Some content;
                    api_configured := api_configured ss |},
                 page ++ (StGenerator <$> tr) ++ [StOutput "success" "✅ MicroLesson generated successfully!"],
                 inr ToDisplay)
            | (tr, inl e) =>
                (ss,
                 page ++ (StGenerator <$> tr) ++
                   [StOutput "error" ("❌ Error generating content: " +:+ str_exc e);
                    StOutput "info" (error_tip e);
                    StOutput "expander" "🔍 Show detailed error info";
                    StTraceback],
                 inr ExitFailed)
            end
          else (ss, page, inr ToDisplay)
      end
  end.

(** ** The text export of [main] *)

Definition question_class (q : Question) : string :=
  match q with
  | MCQQuestion _ _ _ => "MCQQuestion"
  | FillInBlankQuestion _ _ _ _ => "FillInBlankQuestion"
  | TrueFalseQuestion _ _ _ => "TrueFalseQuestion"
  | MatchingQuestion _ _ _ => "MatchingQuestion"
  | OrderingQuestion _ _ _ => "OrderingQuestion"
  end.

(** The fields of a question, by name, and the values of those that hold
    text. *)
Definition question_fields (q : Question) : list string :=
  match q with
  | MCQQuestion _ _ _ => ["question_type"; "question_text"; "options"; "explanation"]
  | FillInBlankQuestion _ _ _ _ =>
      ["question_type"; "question_text"; "correct_answer"; "distractors"; "explanation"]
  | TrueFalseQuestion _ _ _ =>
      ["question_type"; "statement"; "correct_answer"; "explanation"]
  | MatchingQuestion _ _ _ => ["question_type"; "instruction"; "pairs"; "explanation"]
  | OrderingQuestion _ _ _ =>
      ["question_type"; "question_text"; "correct_order"; "explanation"]
  end.

Definition question_texts (q : Question) : gmap string string :=
  match q with
  | MCQQuestion question_text _ explanation =>
      {["question_type" := "mcq"; "question_text" := question_text;
        "explanation" := explanation]}
  | FillInBlankQuestion question_text correct_answer _ explanation =>
      {["question_type" := "fill_blank"; "question_text" := question_text;
        "correct_answer" := correct_answer; "explanation" := explanation]}
  | TrueFalseQuestion statement _ explanation =>
      {["question_type" := "true_false"; "statement" := statement;
        "explanation" := explanation]}
  | MatchingQuestion instruction _ explanation =>
      {["question_type" := "matching"; "instruction" := instruction;
        "explanation" := explanation]}
  | OrderingQuestion question_text _ explanation =>
      {["question_type" := "ordering"; "question_text" := question_text;
        "explanation" := explanation]}
  end.

Definition question_hasattr (q : Question) (name : string) : bool :=
  bool_decide (name ∈ question_fields q).

(** [q.name] for an attribute that holds text when it is there. *)
Definition question_getattr (q : Question) (name : string) : app_error + string :=
  match question_texts q !! name with
  | Some text => inr text
  | None => inl (AttributeError (question_class q) name)
  end.

Definition download_header (content : BiteSizedContent) : string :=
  newline +:+ "# " +:+ concept_name content +:+ newline
  +:+ "Topic: " +:+ topic content +:+ newline
  +:+ "Time: " +:+ pretty (estimated_time content) +:+ " minutes" +:+ newline
  +:+ "Level: " +:+ difficulty_level content +:+ newline
  +:+ newline
  +:+ "## Pre-Read" +:+ newline
  +:+ pre_read content +:+ newline
  +:+ newline
  +:+ "## Questions" +:+ newline.

(** The loop over [enumerate(content.questions, 1)], from index [i]. *)
Fixpoint add_questions (i : Z) (qs : list Question) (text_content : string)
    : app_error + string :=
  match qs with
  | [] => inr text_content
  | q :: qs' =>
      match (if question_hasattr q "question_text"
             then question_getattr q "question_text"
             else question_getattr q "statement") with
      | inl e => inl e
      | inr title =>
          let text_content :=
            text_content +:+ newline +:+ pretty i +:+ ". " +:+ title +:+ newline in
          if question_hasattr q "explanation" then
            match question_getattr q "explanation" with
            | inl e => inl e
            | inr explanation =>
                add_questions (i + 1) qs'
                  (text_content +:+ "   Explanation: " +:+ explanation +:+ newline)
            end
          else add_questions (i + 1) qs' text_content
      end
  end.

(** The loop over [enumerate(content.summary, 1)], from index [i]. *)
Fixpoint add_summary (i : Z) (points : list string) (text_content : string) : string :=
  match points with
  | [] => text_content
  | point :: points' =>
      add_summary (i + 1) points'
        (text_content +:+ pretty i +:+ ". " +:+ point +:+ newline)
  end.

Definition download_text (content : BiteSizedContent) : app_error + string :=
  match add_questions 1 (questions content) (download_header content) with
  | inl e => inl e
  | inr text_content =>
      let text_content := text_content +:+ newline +:+ "## Summary" +:+ newline in
      let text_content := add_summary 1 (summary content) text_content in
      inr (text_content +:+ newline +:+ "## Tags" +:+ newline
           +:+ String.concat ", " (tags content))
  end.

(** [s.replace(old, new)] for single characters. *)
Fixpoint replace_char (old new : ascii) (s : string) : string :=
  match s with
  | EmptyString => EmptyString
  | String c s' =>
      String (if (c =? old)%char then new else c) (replace_char old new s')
  end.

Definition download_file_name (content : BiteSizedContent) : string :=
  replace_char " " "_" (concept_name content) +:+ "_microlesson.txt".

(** The entry the export writes for the question numbered [i], and the
    entries from [i] on. *)
Definition question_title (q : Question) : string :=
  match q with
  | MCQQuestion question_text _ _ | FillInBlankQuestion question_text _ _ _
  | OrderingQuestion question_text _ _ => question_text
  | TrueFalseQuestion statement _ _ => statement
  | MatchingQuestion instruction _ _ => instruction
  end.

Definition question_explanation (q : Question) : string :=
  match q with
  | MCQQuestion _ _ explanation | FillInBlankQuestion _ _ _ explanation
  | TrueFalseQuestion _ _ explanation | MatchingQuestion _ _ explanation
  | OrderingQuestion _ _ explanation => explanation
  end.

Definition question_entry (i : Z) (q : Question) : string :=
  newline +:+ pretty i +:+ ". " +:+ question_title q +:+ newline
  +:+ "   Explanation: " +:+ question_explanation q +:+ newline.

Fixpoint question_entries (i : Z) (qs : list Question) : string :=
  match qs with
  | [] => ""
  | q :: qs' => question_entry i q +:+ question_entries (i + 1) qs'
  end.

Definition summary_entry (i : Z) (point : string) : string :=
  pretty i +:+ ". " +:+ point +:+ newline.

Fixpoint summary_entries (i : Z) (points : list string) : string :=
  match points with
  | [] => ""
  | point :: points' => summary_entry i point +:+ summary_entries (i + 1) points'
  end.

(** The events of the generator on a page. *)
Definition generator_events (page : list st_call) : list event :=
  omap (λ c, match c with StGenerator ev => Some ev | _ => None end) page.

(** The configuration with the values of the sidebar. *)
Definition sidebar_config (inp : SidebarInput) : QuestionConfig :=
  mkQuestionConfig (in_mcq inp) (in_true_false inp) (in_fill_blank inp)
    (in_matching inp) (in_ordering inp).

(** The text in front of the message in the error box of [main]. *)
Definition error_banner : string := "❌ Error generating content: ".

(** The three tips of [main]. *)
Definition tip_format : string := "💡 **Tip**: This usually means the LLM response wasn't properly formatted. Try again in a moment.".
Definition tip_api_key : string := "💡 **Tip**: Check your API key configuration in `.streamlit/secrets.toml`".
Definition tip_connection : string := "💡 **Tip**: Check your internet connection and try again.".

(** A text of ASCII characters only, and a text that is empty or starts with
    an ASCII character. *)
Fixpoint ascii_only (s : string) : bool :=
  match s with
  | EmptyString => true
  | String c s' => (nat_of_ascii c <? 128)%nat && ascii_only s'
  end.

Definition starts_ascii (s : string) : bool :=
  match s with
  | EmptyString => true
  | String c _ => (nat_of_ascii c <? 128)%nat
  end.

(** The hint the [except] clause adds for a given text of the error. *)
Definition hint_for (text : string) : string :=
  if str_in "validation error" (lower text) then validation_hint
  else if str_in "api" (lower text) then api_hint
  else "".

(** The texts of the error boxes ([st.error]) on a page, and the text of
    the one that [display_api_setup] shows. *)
Definition error_boxes (page : list st_call) : list string :=
  omap (λ c, match c with
             | StOutput func text => if bool_decide (func = "error") then Some text else None
             | _ => None
             end) page.

Definition api_required_title : string := "🔑 API Configuration Required".

#[global] Arguments markup : simpl never.
#[global] Arguments str_format : simpl never.
#[global] Arguments error_message : simpl never.

(** * Properties *)

(** ** Strings *)

Section strings.
Implicit Types (s pre post needle hay : string) (c : ascii).

Lemma str_app_cons c s1 s2 : String c s1 +:+ s2 = String c (s1 +:+ s2).
Proof. done. Qed.

Lemma str_app_assoc s1 s2 s3 : (s1 +:+ s2) +:+ s3 = s1 +:+ s2 +:+ s3.
Proof.
  induction s1 as [|c s1 IH]; [done |]. by rewrite !str_app_cons, IH.
Qed.

Lemma str_app_nil_r s : s +:+ "" = s.
Proof. induction s as [|c s IH]; [done |]. by rewrite str_app_cons, IH. Qed.

Lemma contains_refl s : contains s s.
Proof. exists "", "". by rewrite str_app_nil_r. Qed.

Lemma contains_app_r needle pre hay :
  contains needle hay → contains needle (pre +:+ hay).
Proof.
  intros (p & q & ->). exists (pre +:+ p), q. by rewrite str_app_assoc.
Qed.

Lemma contains_app_l needle hay post :
  contains needle hay → contains needle (hay +:+ post).
Proof.
  intros (p & q & ->). exists p, (q +:+ post).
  by rewrite !str_app_assoc.
Qed.

Lemma contains_cons needle c hay :
  contains needle hay → contains needle (String c hay).
Proof. apply (contains_app_r needle (String c "")). Qed.

Lemma contains_trans s1 s2 s3 :
  contains s1 s2 → contains s2 s3 → contains s1 s3.
Proof.
  intros H12 (p & q & ->). by apply contains_app_r, contains_app_l.
Qed.

Lemma prefix_app needle post : String.prefix needle (needle +:+ post) = true.
Proof.
  induction needle as [|c needle IH]; [by destruct post |].
  rewrite str_app_cons. simpl. by destruct (ascii_dec c c).
Qed.

Lemma prefix_split needle hay :
  String.prefix needle hay = true → ∃ post, hay = needle +:+ post.
Proof.
  revert hay. induction needle as [|c needle IH]; intros hay H.
  - by exists hay.
  - destruct hay as [|c' hay]; simpl in H; [done |].
    destruct (ascii_dec c c') as [<- |]; [| done].
    destruct (IH _ H) as [post ->]. by exists post.
Qed.

Lemma str_in_nil needle : str_in needle "" = String.prefix needle "".
Proof. unfold str_in. apply orb_false_r. Qed.

Lemma str_in_cons needle c hay :
  str_in needle (String c hay)
  = String.prefix needle (String c hay) || str_in needle hay.
Proof. done. Qed.

(** The boolean search decides [contains]. *)
Lemma str_in_contains needle hay :
  str_in needle hay = true ↔ contains needle hay.
Proof.
  split.
  - induction hay as [|c hay IH]; intros H.
    + rewrite str_in_nil in H.
      destruct (prefix_split _ _ H) as [post ->]. by exists "", post.
    + rewrite str_in_cons in H. apply orb_true_iff in H as [H | H].
      * destruct (prefix_split _ _ H) as [post ->]. by exists "", post.
      * by apply contains_cons, IH.
  - intros (pre & post & ->).
    induction pre as [|c pre IH].
    + change ("" +:+ needle +:+ post) with (needle +:+ post).
      destruct (needle +:+ post) as [|c hay] eqn:E.
      * by rewrite str_in_nil, <- E, prefix_app.
      * by rewrite str_in_cons, <- E, prefix_app.
    + by rewrite str_app_cons, str_in_cons, IH, orb_true_r.
Qed.

Lemma contains_concat sep part (parts : list string) :
  part ∈ parts → contains part (String.concat sep parts).
Proof.
  induction parts as [|x [|y parts] IH]; intros Hin.
  - by apply elem_of_nil in Hin.
  - apply list_elem_of_singleton in Hin as ->. apply contains_refl.
  - apply elem_of_cons in Hin as [-> | Hin].
    + change (contains x (x +:+ sep +:+ String.concat sep (y :: parts))).
      apply contains_app_l, contains_refl.
    + change (contains part (x +:+ sep +:+ String.concat sep (y :: parts))).
      by apply contains_app_r, contains_app_r, IH.
Qed.
End strings.

(** ** Formatting *)

Section formatting.
Context (kwargs : gmap string fmt_arg).

Lemma render_total (cs : list chunk) :
  Forall (chunk_ok kwargs) cs → ∃ out, render kwargs cs = inr out.
Proof.
  induction 1 as [|ch cs Hch _ [out IH]]; simpl; [by eexists |].
  destruct ch as [c | name | e]; simpl in Hch.
  - rewrite IH. by eexists.
  - destruct Hch as [v ->]. rewrite IH. by eexists.
  - done.
Qed.

Lemma render_contains (cs : list chunk) (out name : string) (v : fmt_arg) :
  render kwargs cs = inr out →
  Replacement name ∈ cs →
  get_value kwargs name = inr v →
  contains (format_value v) out.
Proof.
  revert out. induction cs as [|ch cs IH]; intros out Hr Hin Hv.
  - by apply elem_of_nil in Hin.
  - apply elem_of_cons in Hin as [<- | Hin]; simpl in Hr.
    + rewrite Hv in Hr. destruct (render kwargs cs) as [e | out']; [done |].
      injection Hr as <-. apply contains_app_l, contains_refl.
    + destruct ch as [c | name' | e].
      * destruct (render kwargs cs) as [e | out']; [done |].
        injection Hr as <-. by apply contains_cons, IH.
      * destruct (get_value kwargs name') as [e | v']; [done |].
        destruct (render kwargs cs) as [e | out']; [done |].
        injection Hr as <-. by apply contains_app_r, IH.
      * done.
Qed.
End formatting.

(** [str.format] on small inputs: the escapes, a field, a missing key, and
    malformed markup. *)
Example str_format_escapes :
  str_format "a{{b}} {n} {s}" {["n" := ArgInt 7; "s" := ArgStr "x"]} = inr "a{b} 7 x".
Proof. vm_compute. reflexivity. Qed.

Example str_format_missing_key : str_format "{topic}" ∅ = inl (KeyError "topic").
Proof. vm_compute. reflexivity. Qed.

Example str_format_single_brace :
  str_format "a}b" ∅ = inl (ValueError "Single '}' encountered in format string").
Proof. vm_compute. reflexivity. Qed.

Example str_format_error_order :
  str_format "{a} }" ∅ = inl (KeyError "a").
Proof. vm_compute. reflexivity. Qed.

(** ** The template *)

Lemma template_chunks_ok :
  forallb template_chunk (markup None DYNAMIC_PROMPT_TEMPLATE) = true.
Proof. vm_compute. reflexivity. Qed.

Lemma template_has_fields :
  forallb (λ name, existsb (is_field name) (markup None DYNAMIC_PROMPT_TEMPLATE))
    template_fields = true.
Proof. vm_compute. reflexivity. Qed.

Section prompt.
Context (topic concept concept_description : string) (cfg : QuestionConfig).

#[local] Abbreviation kwargs := (prompt_kwargs topic concept concept_description cfg).

Lemma kwargs_topic : get_value kwargs "topic" = inr (ArgStr topic).
Proof. reflexivity. Qed.

Lemma kwargs_concept : get_value kwargs "concept" = inr (ArgStr concept).
Proof. reflexivity. Qed.

Lemma kwargs_concept_description :
  get_value kwargs "concept_description" = inr (ArgStr concept_description).
Proof. reflexivity. Qed.

Lemma kwargs_total_questions :
  get_value kwargs "total_questions" = inr (ArgInt (total_questions cfg)).
Proof. reflexivity. Qed.

Lemma kwargs_question_distribution :
  get_value kwargs "question_distribution" = inr (ArgStr (to_prompt_string cfg)).
Proof. reflexivity. Qed.

Lemma template_chunk_ok (ch : chunk) :
  template_chunk ch = true → chunk_ok kwargs ch.
Proof.
  destruct ch as [c | name | e]; [intros _; exact I | | intros H; discriminate H].
  intros Hin. apply bool_decide_eq_true in Hin. unfold template_fields in Hin.
  apply elem_of_cons in Hin as [-> | Hin]; [eexists; apply kwargs_topic |].
  apply elem_of_cons in Hin as [-> | Hin]; [eexists; apply kwargs_concept |].
  apply elem_of_cons in Hin as [-> | Hin];
    [eexists; apply kwargs_concept_description |].
  apply elem_of_cons in Hin as [-> | Hin]; [eexists; apply kwargs_total_questions |].
  apply elem_of_cons in Hin as [-> | Hin];
    [eexists; apply kwargs_question_distribution |].
  by apply elem_of_nil in Hin.
Qed.

(** The same over any chunk list that passes the two checks made on the
    template. *)
Lemma render_template_chunks (cs : list chunk) :
  forallb template_chunk cs = true →
  forallb (λ name, existsb (is_field name) cs) template_fields = true →
  ∃ prompt,
    render kwargs cs = inr prompt ∧
    contains topic prompt ∧ contains concept prompt ∧
    contains concept_description prompt ∧
    contains (pretty (total_questions cfg)) prompt ∧
    contains (to_prompt_string cfg) prompt.
Proof.
  intros Hok Hfields.
  destruct (render_total kwargs cs) as [prompt Hp].
  { apply Forall_forall. intros ch Hin. apply template_chunk_ok.
    rewrite forallb_forall in Hok. apply Hok, list_elem_of_In, Hin. }
  exists prompt. split; [exact Hp |].
  assert (∀ name v, In name template_fields → get_value kwargs name = inr v →
                    contains (format_value v) prompt) as Hf.
  { intros name v Hin Hv.
    apply (render_contains kwargs cs prompt name v Hp); [| exact Hv].
    rewrite forallb_forall in Hfields.
    specialize (Hfields name Hin).
    apply existsb_exists in Hfields as (ch & Hch & Hname).
    destruct ch as [c | name' | e]; [discriminate Hname | | discriminate Hname].
    apply bool_decide_eq_true in Hname as ->. apply list_elem_of_In, Hch. }
  unfold template_fields in Hf.
  split; [| split; [| split; [| split]]].
  - apply (Hf "topic" (ArgStr topic)); [cbn; tauto | apply kwargs_topic].
  - apply (Hf "concept" (ArgStr concept)); [cbn; tauto | apply kwargs_concept].
  - apply (Hf "concept_description" (ArgStr concept_description));
      [cbn; tauto | apply kwargs_concept_description].
  - apply (Hf "total_questions" (ArgInt (total_questions cfg)));
      [cbn; tauto | apply kwargs_total_questions].
  - apply (Hf "question_distribution" (ArgStr (to_prompt_string cfg)));
      [cbn; tauto | apply kwargs_question_distribution].
Qed.

(** Formatting the template with the builder's arguments always succeeds,
    and every argument appears in the result. *)
Lemma format_template :
  ∃ prompt,
    str_format DYNAMIC_PROMPT_TEMPLATE kwargs = inr prompt ∧
    contains topic prompt ∧ contains concept prompt ∧
    contains concept_description prompt ∧
    contains (pretty (total_questions cfg)) prompt ∧
    contains (to_prompt_string cfg) prompt.
Proof.
  exact (render_template_chunks _ template_chunks_ok template_has_fields).
Qed.
End prompt.

(** ** The question configuration *)

Lemma QuestionConfig_new_default :
  QuestionConfig_new ∅ = inr (mkQuestionConfig 2 2 1 0 0).
Proof. reflexivity. Qed.

(** The code and the specification's wording of the distribution string
    agree on non-negative counts. *)
Lemma to_prompt_string_spec (self : QuestionConfig) :
  Forall (λ n, 0 ≤ n) (counts self) →
  to_prompt_string self = distribution_string_spec self.
Proof.
  intros Hnn.
  destruct self as [a b c d e]. unfold counts in Hnn. simpl in Hnn.
  repeat match goal with
         | H : Forall _ (_ :: _) |- _ => apply Forall_cons in H as [? H]
         end.
  unfold to_prompt_string, distribution_string_spec, labelled_counts.
  cbn [mcq true_false fill_blank matching ordering].
  rewrite !filter_cons, filter_nil. cbn [fst snd].
  repeat case_decide;
    repeat match goal with
           | |- context [0 <? ?x] => destruct (Z.ltb_spec 0 x)
           end;
    try lia; reflexivity.
Qed.

(** C1: for non-negative counts the distribution string lists exactly the
    types with a nonzero count, in the order mcq, true_false, fill_blank,
    matching, ordering, each as its count, a space and its label, joined
    with a comma and a space; the baseline configuration gives
    "2 Multiple Choice (MCQ), 2 True/False, 1 Fill in the Blank". *)
Theorem to_prompt_string_lists_nonzero (self : QuestionConfig) :
  Forall (λ n, 0 ≤ n) (counts self) →
  to_prompt_string self = distribution_string_spec self ∧
  to_prompt_string (mkQuestionConfig 2 2 1 0 0)
  = "2 Multiple Choice (MCQ), 2 True/False, 1 Fill in the Blank".
Proof.
  intros Hnn. split; [by apply to_prompt_string_spec | reflexivity].
Qed.

Lemma to_prompt_string_lists_nonzero_witness :
  Forall (λ n, 0 ≤ n) (counts (mkQuestionConfig 0 3 0 1 0)) ∧
  to_prompt_string (mkQuestionConfig 0 3 0 1 0) = "3 True/False, 1 Matching".
Proof.
  assert (Forall (λ n, 0 ≤ n) (counts (mkQuestionConfig 0 3 0 1 0))) as H.
  { unfold counts. simpl. repeat constructor; lia. }
  split; [exact H |].
  rewrite (proj1 (to_prompt_string_lists_nonzero (mkQuestionConfig 0 3 0 1 0) H)).
  reflexivity.
Defined.

(** C7: the total is exactly the sum of the five counts; it does not depend
    on the order in which the keyword arguments were given to the
    constructor, nor, addition being commutative and associative, on how the
    five counts are spread over the fields. *)
Theorem total_questions_exact_sum :
  (∀ self : QuestionConfig,
     total_questions self
     = mcq self + true_false self + fill_blank self + matching self + ordering self) ∧
  (∀ kw kw' : list (string * Z),
     NoDup kw.*1 → kw ≡ₚ kw' →
     QuestionConfig_new (list_to_map kw) = QuestionConfig_new (list_to_map kw')) ∧
  (∀ self other : QuestionConfig,
     counts self ≡ₚ counts other → total_questions self = total_questions other).
Proof.
  split; [reflexivity |]. split.
  - intros kw kw' Hnd Hperm.
    by rewrite (list_to_map_proper (M := gmap string) kw kw' Hnd Hperm).
  - intros self other Hperm.
    assert (∀ cfg, total_questions cfg = foldr Z.add 0 (counts cfg)) as Hsum.
    { intros [a b c d e]. unfold total_questions, counts. simpl. lia. }
    rewrite !Hsum.
    apply (foldr_permutation_proper (=) Z.add 0 (λ x y z, Z.add_shuffle3 x y z)).
    exact Hperm.
Qed.

Lemma total_questions_exact_sum_witness :
  total_questions (mkQuestionConfig 2 2 1 0 0) = 2 + 2 + 1 + 0 + 0 ∧
  QuestionConfig_new (list_to_map [("mcq", 3); ("true_false", 1); ("matching", 1)])
  = QuestionConfig_new (list_to_map [("true_false", 1); ("mcq", 3); ("matching", 1)]) ∧
  total_questions (mkQuestionConfig 3 1 2 0 1)
  = total_questions (mkQuestionConfig 1 3 2 0 1).
Proof.
  destruct total_questions_exact_sum as (Hsum & Horder & Hperm).
  split; [apply Hsum |]. split.
  - apply Horder; [| apply perm_swap].
    apply (bool_decide_unpack _). vm_compute. exact I.
  - apply Hperm. apply perm_swap.
Defined.

(** C8: the constructor fails with the invalid-configuration error as soon
    as one of the five counts is negative, and succeeds when all are
    non-negative; the failure leaves an empty trace and nothing sequenced
    after the construction (prompt building, a request) runs. *)
Theorem QuestionConfig_new_rejects_negative (kwargs : gmap string Z) :
  (Exists (λ v, v < 0) (constructor_counts kwargs) →
   ∃ fields, fields ≠ [] ∧
     QuestionConfig_new kwargs = inl (InvalidConfigError fields) ∧
     ∀ (A : Type) (k : QuestionConfig → M A),
       (liftE (QuestionConfig_new kwargs) ≫= k) = ([], inl (InvalidConfigError fields))) ∧
  (Forall (λ v, 0 ≤ v) (constructor_counts kwargs) →
   ∃ cfg, QuestionConfig_new kwargs = inr cfg ∧
     counts cfg = constructor_counts kwargs).
Proof.
  unfold QuestionConfig_new, constructor_counts, check_ge0.
  generalize (field_value kwargs "mcq" 2) (field_value kwargs "true_false" 2)
    (field_value kwargs "fill_blank" 1) (field_value kwargs "matching" 0)
    (field_value kwargs "ordering" 0).
  intros a b c d e. cbv zeta.
  split.
  - intros Hneg. rewrite !Exists_cons, Exists_nil in Hneg.
    destruct (Z.ltb_spec a 0), (Z.ltb_spec b 0), (Z.ltb_spec c 0),
      (Z.ltb_spec d 0), (Z.ltb_spec e 0);
      try lia;
      (eexists; split; [| split; [reflexivity |]];
       [discriminate | intros A k; reflexivity]).
  - intros Hnn. rewrite !Forall_cons in Hnn.
    destruct (Z.ltb_spec a 0), (Z.ltb_spec b 0), (Z.ltb_spec c 0),
      (Z.ltb_spec d 0), (Z.ltb_spec e 0);
      try lia.
    eexists. split; reflexivity.
Qed.

Lemma QuestionConfig_new_rejects_negative_witness :
  (∃ fields, fields ≠ [] ∧
     QuestionConfig_new (list_to_map [("mcq", 3); ("matching", -1)])
     = inl (InvalidConfigError fields)) ∧
  (∃ cfg, QuestionConfig_new (list_to_map [("mcq", 3); ("matching", 1)]) = inr cfg ∧
     counts cfg = [3; 2; 1; 1; 0]).
Proof.
  split.
  - destruct (proj1 (QuestionConfig_new_rejects_negative
                       (list_to_map [("mcq", 3); ("matching", -1)])))
      as (fields & Hne & Hnew & _).
    + unfold constructor_counts. vm_compute field_value.
      do 3 apply Exists_cons_tl. apply Exists_cons_hd. lia.
    + exists fields. split; [exact Hne | exact Hnew].
  - destruct (proj2 (QuestionConfig_new_rejects_negative
                       (list_to_map [("mcq", 3); ("matching", 1)])))
      as (cfg & Hnew & Hcounts).
    + unfold constructor_counts. vm_compute field_value.
      repeat (apply Forall_cons; split; [lia |]). apply Forall_nil_2.
    + exists cfg. split; [exact Hnew | exact Hcounts].
Defined.

(** ** The prompt builder *)

Lemma generate_content_prompt_Some (topic concept concept_description : string)
    (cfg : QuestionConfig) :
  generate_content_prompt topic concept concept_description (Some cfg)
  = if total_questions cfg =? 0 then ([], inl EmptyConfigurationError)
    else ([EvFormat],
          str_format DYNAMIC_PROMPT_TEMPLATE
            (prompt_kwargs topic concept concept_description cfg)).
Proof.
  unfold generate_content_prompt, mbind, M_bind, mret, M_ret.
  destruct (total_questions cfg =? 0); reflexivity.
Qed.

Lemma generate_content_prompt_None (topic concept concept_description : string) :
  generate_content_prompt topic concept concept_description None
  = generate_content_prompt topic concept concept_description
      (Some (mkQuestionConfig 2 2 1 0 0)).
Proof.
  unfold generate_content_prompt. rewrite QuestionConfig_new_default. reflexivity.
Qed.

(** C2: on a configuration whose total is 0 the prompt builder raises the
    empty-configuration error with an empty trace, so the template is not
    formatted; on a total of at least 1 it formats the template once and
    returns a prompt, so it does not raise that error. *)
Theorem generate_content_prompt_empty_configuration
    (topic concept concept_description : string) (cfg : QuestionConfig) :
  (total_questions cfg = 0 →
   generate_content_prompt topic concept concept_description (Some cfg)
   = ([], inl EmptyConfigurationError)) ∧
  (1 ≤ total_questions cfg →
   ∃ prompt,
     generate_content_prompt topic concept concept_description (Some cfg)
     = ([EvFormat], inr prompt)).
Proof.
  rewrite generate_content_prompt_Some. split.
  - intros ->. reflexivity.
  - intros Hpos. destruct (Z.eqb_spec (total_questions cfg) 0) as [H0 | _]; [lia |].
    destruct (format_template topic concept concept_description cfg)
      as (prompt & -> & _).
    by exists prompt.
Qed.

Lemma generate_content_prompt_empty_configuration_witness :
  generate_content_prompt "Psychology" "Growth Mindset" "..."
    (Some (mkQuestionConfig 0 0 0 0 0))
  = ([], inl EmptyConfigurationError) ∧
  ∃ prompt,
    generate_content_prompt "Psychology" "Growth Mindset" "..."
      (Some (mkQuestionConfig 4 1 0 0 0))
    = ([EvFormat], inr prompt).
Proof.
  split.
  - apply (generate_content_prompt_empty_configuration "Psychology"
             "Growth Mindset" "..." (mkQuestionConfig 0 0 0 0 0)).
    reflexivity.
  - apply (generate_content_prompt_empty_configuration "Psychology"
             "Growth Mindset" "..." (mkQuestionConfig 4 1 0 0 0)).
    vm_compute. discriminate.
Defined.

(** C4: for non-negative counts with a total of at least 1, the prompt
    returned by the builder contains the decimal rendering of the total,
    every entry (count, space, label) of a type with a nonzero count, and the
    distribution string itself. *)
Theorem generate_content_prompt_mentions_distribution
    (topic concept concept_description : string) (cfg : QuestionConfig) :
  Forall (λ n, 0 ≤ n) (counts cfg) →
  1 ≤ total_questions cfg →
  ∃ prompt,
    (generate_content_prompt topic concept concept_description (Some cfg)).2
    = inr prompt ∧
    str_in (pretty (total_questions cfg)) prompt = true ∧
    (∀ p, p ∈ labelled_counts cfg → p.1 ≠ 0 → str_in (entry p) prompt = true) ∧
    str_in (to_prompt_string cfg) prompt = true.
Proof.
  intros Hnn Hpos. rewrite generate_content_prompt_Some.
  destruct (Z.eqb_spec (total_questions cfg) 0) as [H0 | _]; [lia |].
  destruct (format_template topic concept concept_description cfg)
    as (prompt & -> & _ & _ & _ & Htotal & Hdist).
  exists prompt. split; [reflexivity |].
  split; [by apply str_in_contains |].
  split; [| by apply str_in_contains].
  intros p Hin Hp. apply str_in_contains.
  apply (contains_trans _ (to_prompt_string cfg)); [| exact Hdist].
  rewrite (to_prompt_string_spec cfg Hnn).
  apply contains_concat, list_elem_of_fmap. exists p. split; [reflexivity |].
  by apply list_elem_of_filter.
Qed.

Lemma generate_content_prompt_mentions_distribution_witness :
  ∃ prompt,
    (generate_content_prompt "Psychology" "The Zeigarnik Effect" "Why"
       (Some (mkQuestionConfig 2 1 1 1 1))).2 = inr prompt ∧
    str_in "6" prompt = true ∧
    str_in "1 Ordering" prompt = true ∧
    str_in "2 Multiple Choice (MCQ), 1 True/False, 1 Fill in the Blank, 1 Matching, 1 Ordering"
      prompt = true.
Proof.
  destruct (generate_content_prompt_mentions_distribution "Psychology"
              "The Zeigarnik Effect" "Why" (mkQuestionConfig 2 1 1 1 1))
    as (prompt & Hp & Htotal & Hentries & Hdist).
  - unfold counts. simpl. repeat (apply Forall_cons; split; [lia |]).
    apply Forall_nil_2.
  - vm_compute. discriminate.
  - exists prompt. split; [exact Hp |]. split; [exact Htotal |]. split.
    + apply (Hentries (1, "Ordering")); [| simpl; lia].
      unfold labelled_counts. simpl. do 4 apply list_elem_of_further.
      apply list_elem_of_here.
    + exact Hdist.
Defined.

(** C10: the configuration with all five counts zero can be constructed, its
    distribution string is the empty string, and the prompt builder rejects
    it with the empty-configuration error. *)
Theorem to_prompt_string_all_zero :
  QuestionConfig_new
    (list_to_map [("mcq", 0); ("true_false", 0); ("fill_blank", 0);
                  ("matching", 0); ("ordering", 0)])
  = inr (mkQuestionConfig 0 0 0 0 0) ∧
  to_prompt_string (mkQuestionConfig 0 0 0 0 0) = "" ∧
  ∀ topic concept concept_description,
    generate_content_prompt topic concept concept_description
      (Some (mkQuestionConfig 0 0 0 0 0))
    = ([], inl EmptyConfigurationError).
Proof.
  split; [reflexivity |]. split; [reflexivity |].
  intros topic concept concept_description.
  by rewrite generate_content_prompt_Some.
Qed.

(** ** The content generator *)

Lemma M_bind_ok {A B : Type} (tr : list event) (a : A) (k : A → M B) :
  ((tr, inr a) : M A) ≫= k = let '(tr', r) := k a in (tr ++ tr', r).
Proof. reflexivity. Qed.

Lemma M_bind_raise {A B : Type} (tr : list event) (e : exception) (k : A → M B) :
  ((tr, inl e) : M A) ≫= k = (tr, inl e).
Proof. reflexivity. Qed.

Lemma try_request (w : World) (rq : GenerateRequest) :
  try_except
    (generate_questions w rq ≫= λ result,
       if negb (py_bool result) || negb (hasattr result "pre_read")
       then raise EmptyResponseError
       else mret result)
    (λ e, raise (Exception (error_message e)))
  = ([EvGenerateQuestions rq], reply_outcome w rq).
Proof.
  unfold generate_questions, reply_outcome, accepted.
  destruct (llm_reply w rq) as [msg | result]; [reflexivity |].
  cbv [mbind M_bind mret M_ret emit try_except raise app].
  destruct (py_bool result), (hasattr result "pre_read"); reflexivity.
Qed.

Section generator.
Context (w : World) (topic concept concept_description : string)
  (question_config : option QuestionConfig).

#[local] Abbreviation cfg := (config_or_default question_config).

Lemma generate_learning_content_no_key :
  get_api_key w = ("", "") →
  generate_learning_content w topic concept concept_description question_config
  = ([], inl MissingCredentialsError).
Proof. intros Hkeys. unfold generate_learning_content. by rewrite Hkeys. Qed.

(** Once a backend [llm] is chosen, the generator either stops at the
    empty configuration, or formats the prompt and sends one request. *)
Lemma generate_learning_content_with (openrouter_key cerebras_key : string)
    (llm : ChatOpenAI) :
  get_api_key w = (openrouter_key, cerebras_key) →
  (str_bool openrouter_key = true ∧ llm = openrouter_llm openrouter_key) ∨
  (str_bool openrouter_key = false ∧ str_bool cerebras_key = true ∧
   llm = cerebras_llm cerebras_key) →
  (total_questions cfg = 0 ∧
   generate_learning_content w topic concept concept_description question_config
   = ([EvChatOpenAI llm; EvEduchain llm], inl EmptyConfigurationError)) ∨
  (∃ prompt,
     generate_content_prompt topic concept concept_description (Some cfg)
     = ([EvFormat], inr prompt) ∧
     generate_learning_content w topic concept concept_description question_config
     = ([EvChatOpenAI llm; EvEduchain llm; EvFormat;
         EvGenerateQuestions (request_of llm topic concept cfg prompt)],
        reply_outcome w (request_of llm topic concept cfg prompt))).
Proof.
  intros Hkeys Hsel.
  assert (generate_content_prompt topic concept concept_description (Some cfg)
          = ([], inl EmptyConfigurationError) ∧ total_questions cfg = 0 ∨
          ∃ prompt, generate_content_prompt topic concept concept_description
                      (Some cfg) = ([EvFormat], inr prompt)) as Hprompt.
  { rewrite generate_content_prompt_Some.
    destruct (Z.eqb_spec (total_questions cfg) 0) as [H0 | _]; [by left |].
    destruct (format_template topic concept concept_description cfg)
      as (prompt & -> & _).
    right. by exists prompt. }
  unfold generate_learning_content. rewrite Hkeys.
  assert ((if str_bool openrouter_key
           then new_ChatOpenAI "anthropic/claude-sonnet-4.5" openrouter_key
                  "https://openrouter.ai/api/v1"
           else if str_bool cerebras_key
                then new_ChatOpenAI "qwen-3-235b-a22b-thinking-2507" cerebras_key
                       "https://api.cerebras.ai/v1"
                else raise MissingCredentialsError)
          = ([EvChatOpenAI llm], inr llm)) as ->.
  { destruct Hsel as [[-> ->] | (-> & -> & ->)]; reflexivity. }
  assert ((match question_config with
           | Some c => mret c
           | None => liftE (QuestionConfig_new ∅)
           end : M QuestionConfig) = ([], inr cfg)) as ->.
  { unfold cfg, config_or_default.
    destruct question_config; [reflexivity |].
    by rewrite QuestionConfig_new_default. }
  rewrite M_bind_ok. cbv beta.
  change (new_Educhain llm) with (([EvEduchain llm], inr llm) : M ChatOpenAI).
  rewrite M_bind_ok. cbv beta. rewrite M_bind_ok. cbv beta.
  destruct Hprompt as [[Hp H0] | [prompt Hp]]; rewrite Hp.
  - left. split; [exact H0 |]. by rewrite M_bind_raise.
  - right. exists prompt. split; [reflexivity |].
    rewrite M_bind_ok. cbv beta. by rewrite try_request.
Qed.
End generator.

Lemma str_bool_true (s : string) : str_bool s = true ↔ s ≠ "".
Proof. by destruct s. Qed.

Lemma str_bool_false (s : string) : str_bool s = false ↔ s = "".
Proof. by destruct s. Qed.

(** C3: when both credentials resolve to the empty string, the generator
    raises the missing-credentials error with an empty trace: no client has
    been constructed and no request has been sent. *)
Theorem generate_learning_content_missing_credentials (w : World)
    (topic concept concept_description : string)
    (question_config : option QuestionConfig) :
  get_api_key w = ("", "") →
  generate_learning_content w topic concept concept_description question_config
  = ([], inl MissingCredentialsError) ∧
  clients_in
    (generate_learning_content w topic concept concept_description question_config).1
  = [] ∧
  requests_in
    (generate_learning_content w topic concept concept_description question_config).1
  = [].
Proof.
  intros Hkeys.
  rewrite (generate_learning_content_no_key w topic concept concept_description
             question_config Hkeys).
  by repeat split.
Qed.

Lemma generate_learning_content_missing_credentials_witness :
  generate_learning_content
    {| secrets := Some {["OTHER_KEY" := "x"]};
       environ := {["OPENROUTER_API_KEY" := "sk-env"]};
       llm_reply := λ _, inr PyNone |}
    "Psychology" "Growth Mindset" "Why" None
  = ([], inl MissingCredentialsError).
Proof.
  apply generate_learning_content_missing_credentials. reflexivity.
Defined.

(** The three shapes of a run, by the credentials. *)
Lemma generate_learning_content_shape (w : World)
    (topic concept concept_description : string)
    (question_config : option QuestionConfig)
    (openrouter_key cerebras_key : string) :
  get_api_key w = (openrouter_key, cerebras_key) →
  let run :=
    generate_learning_content w topic concept concept_description question_config in
  (openrouter_key = "" ∧ cerebras_key = "" ∧
   run = ([], inl MissingCredentialsError)) ∨
  ∃ llm,
    (openrouter_key ≠ "" ∧ llm = openrouter_llm openrouter_key ∨
     openrouter_key = "" ∧ cerebras_key ≠ "" ∧ llm = cerebras_llm cerebras_key) ∧
    (run = ([EvChatOpenAI llm; EvEduchain llm], inl EmptyConfigurationError) ∨
     ∃ rq, rq_client rq = llm ∧
       run = ([EvChatOpenAI llm; EvEduchain llm; EvFormat; EvGenerateQuestions rq],
              reply_outcome w rq)).
Proof.
  intros Hkeys run. subst run.
  destruct (str_bool openrouter_key) eqn:Ho; [| destruct (str_bool cerebras_key) eqn:Hc].
  - right. exists (openrouter_llm openrouter_key).
    apply str_bool_true in Ho. split; [by left |].
    destruct (generate_learning_content_with w topic concept concept_description
                question_config _ _ (openrouter_llm openrouter_key) Hkeys)
      as [[_ Hr] | (prompt & _ & Hr)].
    + left. split; [by apply str_bool_true | done].
    + by left.
    + right. eexists. split; [| exact Hr]. reflexivity.
  - right. exists (cerebras_llm cerebras_key).
    apply str_bool_false in Ho. apply str_bool_true in Hc.
    split; [by right |].
    destruct (generate_learning_content_with w topic concept concept_description
                question_config _ _ (cerebras_llm cerebras_key) Hkeys)
      as [[_ Hr] | (prompt & _ & Hr)].
    + right. split; [by apply str_bool_false |].
      split; [by apply str_bool_true | done].
    + by left.
    + right. eexists. split; [| exact Hr]. reflexivity.
  - left. apply str_bool_false in Ho, Hc. subst.
    split; [done |]. split; [done |].
    by apply generate_learning_content_no_key.
Qed.

Lemma backends_differ (k1 k2 : string) : cerebras_llm k1 ≠ openrouter_llm k2.
Proof. discriminate. Qed.

(** With a credential present and a configuration whose total is not 0,
    the run gets as far as the request: the client chosen by the keys, the
    prompt of the builder, one request, and the outcome of its reply. *)
Lemma generate_learning_content_sends (w : World)
    (topic concept concept_description : string)
    (question_config : option QuestionConfig)
    (openrouter_key cerebras_key : string) :
  get_api_key w = (openrouter_key, cerebras_key) →
  openrouter_key ≠ "" ∨ cerebras_key ≠ "" →
  total_questions (config_or_default question_config) ≠ 0 →
  ∃ prompt,
    generate_content_prompt topic concept concept_description
      (Some (config_or_default question_config)) = ([EvFormat], inr prompt) ∧
    let llm := if str_bool openrouter_key then openrouter_llm openrouter_key
               else cerebras_llm cerebras_key in
    let rq := request_of llm topic concept (config_or_default question_config) prompt in
    generate_learning_content w topic concept concept_description question_config
    = ([EvChatOpenAI llm; EvEduchain llm; EvFormat; EvGenerateQuestions rq],
       reply_outcome w rq).
Proof.
  intros Hkeys Hsome Hne.
  assert (let llm := if str_bool openrouter_key then openrouter_llm openrouter_key
                     else cerebras_llm cerebras_key in
          str_bool openrouter_key = true ∧ llm = openrouter_llm openrouter_key ∨
          str_bool openrouter_key = false ∧ str_bool cerebras_key = true ∧
            llm = cerebras_llm cerebras_key) as Hllm.
  { cbv zeta. destruct (str_bool openrouter_key) eqn:Ho; [by left |].
    right. split; [done |]. split; [| done].
    apply str_bool_false in Ho. destruct Hsome as [Hsome | Hsome]; [done |].
    by apply str_bool_true. }
  destruct (generate_learning_content_with w topic concept concept_description
              question_config _ _ _ Hkeys Hllm)
    as [[H0 _] | (prompt & Hp & Hrun)]; [done |].
  by exists prompt.
Qed.

(** C5: the backend follows the credentials in a fixed priority: a
    non-empty primary (OpenRouter) key selects the primary backend whatever
    the fallback key is; the fallback (Cerebras) backend is constructed only
    when the primary key is empty and the fallback key is not; exactly one
    client is constructed, at most one request is sent, it goes to that
    client, and when it fails the call fails without a second client or a
    second request; with a credential present and a total that is not 0 the
    request is sent, to the backend the keys select, and the call ends with
    the outcome of that one reply. *)
Theorem backend_selection_priority (w : World)
    (topic concept concept_description : string)
    (question_config : option QuestionConfig)
    (openrouter_key cerebras_key : string) :
  get_api_key w = (openrouter_key, cerebras_key) →
  let run :=
    generate_learning_content w topic concept concept_description question_config in
  (openrouter_key ≠ "" → clients_in run.1 = [openrouter_llm openrouter_key]) ∧
  (openrouter_key = "" → cerebras_key ≠ "" →
   clients_in run.1 = [cerebras_llm cerebras_key]) ∧
  (cerebras_llm cerebras_key ∈ clients_in run.1 →
   openrouter_key = "" ∧ cerebras_key ≠ "") ∧
  (length (clients_in run.1) ≤ 1)%nat ∧
  (length (requests_in run.1) ≤ 1)%nat ∧
  (∀ rq, rq ∈ requests_in run.1 → clients_in run.1 = [rq_client rq]) ∧
  (∀ rq msg, rq ∈ requests_in run.1 → llm_reply w rq = inl msg →
   run.2 = inl (Exception (error_message (LibraryError msg))) ∧
   requests_in run.1 = [rq] ∧ clients_in run.1 = [rq_client rq]) ∧
  (openrouter_key ≠ "" ∨ cerebras_key ≠ "" →
   total_questions (config_or_default question_config) ≠ 0 →
   ∃ rq, requests_in run.1 = [rq] ∧
         rq_client rq = (if str_bool openrouter_key then openrouter_llm openrouter_key
                         else cerebras_llm cerebras_key) ∧
         run.2 = reply_outcome w rq).
Proof.
  intros Hkeys run.
  assert (openrouter_key ≠ "" ∨ cerebras_key ≠ "" →
          total_questions (config_or_default question_config) ≠ 0 →
          ∃ rq, requests_in run.1 = [rq] ∧
                rq_client rq = (if str_bool openrouter_key
                                then openrouter_llm openrouter_key
                                else cerebras_llm cerebras_key) ∧
                run.2 = reply_outcome w rq) as Hsent.
  { intros Hsome Hne.
    destruct (generate_learning_content_sends w topic concept concept_description
                question_config _ _ Hkeys Hsome Hne) as (prompt & _ & Hrun).
    cbv zeta in Hrun. fold run in Hrun. rewrite Hrun.
    eexists. split; [reflexivity |]. split; reflexivity. }
  destruct (generate_learning_content_shape w topic concept concept_description
              question_config _ _ Hkeys)
    as [(Ho & Hc & Hrun) | (llm & Hllm & Hrun)]; fold run in Hrun.
  - (* no credential: nothing is constructed *)
    rewrite Hrun. cbn [fst snd clients_in requests_in omap list_omap length].
    split; [done |]. split; [done |].
    split; [by intros ?%elem_of_nil |].
    split; [lia |]. split; [lia |].
    split; [by intros rq ?%elem_of_nil |].
    split; [by intros rq msg ?%elem_of_nil |].
    by intros [? | ?].
  - assert (clients_in run.1 = [llm]) as Hclients.
    { by destruct Hrun as [-> | (rq & _ & ->)]. }
    assert (requests_in run.1 = [] ∨
            ∃ rq, rq_client rq = llm ∧ requests_in run.1 = [rq] ∧
                  run.2 = reply_outcome w rq) as Hrequests.
    { destruct Hrun as [-> | (rq & Hrq & ->)]; [by left |].
      right. by exists rq. }
    rewrite Hclients.
    split; [| split; [| split; [| split; [| split; [| split; [| split]]]]]];
      [| | | | | | | exact Hsent].
    + intros Hne. by destruct Hllm as [[_ ->] | (-> & _)].
    + intros -> Hne. by destruct Hllm as [[? _] | (_ & _ & ->)].
    + intros Hin%list_elem_of_singleton.
      destruct Hllm as [[_ ->] | (-> & Hne & _)]; [| done].
      by apply backends_differ in Hin.
    + simpl. lia.
    + destruct Hrequests as [-> | (rq & _ & -> & _)]; simpl; lia.
    + intros rq Hin.
      destruct Hrequests as [Hnil | (rq' & Hrq & Hone & _)].
      * rewrite Hnil in Hin. by apply elem_of_nil in Hin.
      * rewrite Hone in Hin. apply list_elem_of_singleton in Hin as ->.
        by rewrite Hrq.
    + intros rq msg Hin Hfail.
      destruct Hrequests as [Hnil | (rq' & Hrq & Hone & Hout)].
      * rewrite Hnil in Hin. by apply elem_of_nil in Hin.
      * rewrite Hone in Hin. apply list_elem_of_singleton in Hin as ->.
        rewrite Hout, Hone, Hrq. unfold reply_outcome. by rewrite Hfail.
Qed.

Lemma backend_selection_priority_witness :
  let w := {| secrets := Some {["OPENROUTER_API_KEY" := "sk-or"; "CEREBRAS_API_KEY" := "csk"]};
              environ := ∅;
              llm_reply := λ _, inl "connection refused" |} in
  let run := generate_learning_content w "Psychology" "Growth Mindset" "Why" None in
  clients_in run.1 = [openrouter_llm "sk-or"] ∧
  ∃ rq, requests_in run.1 = [rq] ∧
        rq_client rq = openrouter_llm "sk-or" ∧
        run.2 = inl (Exception (error_message (LibraryError "connection refused"))).
Proof.
  intros w run.
  destruct (backend_selection_priority w "Psychology" "Growth Mindset" "Why" None
              "sk-or" "csk" eq_refl)
    as (Hprimary & _ & _ & _ & _ & _ & Hfail & Hsent).
  split; [apply Hprimary; discriminate |].
  destruct Hsent as (rq & Hone & Hclient & _); [left; discriminate | discriminate |].
  exists rq. split; [exact Hone |]. split; [exact Hclient |].
  apply (Hfail rq "connection refused"); [| reflexivity].
  unfold run in Hone |- *. rewrite Hone. apply list_elem_of_here.
Defined.

Lemma render_app (kwargs : gmap string fmt_arg) (cs1 cs2 : list chunk) (out : string) :
  render kwargs (cs1 ++ cs2) = inr out →
  ∃ out1 out2, render kwargs cs1 = inr out1 ∧ render kwargs cs2 = inr out2 ∧
               out = out1 +:+ out2.
Proof.
  revert out. induction cs1 as [| ch cs1 IH]; intros out Hr.
  - exists "", out. by repeat split.
  - rewrite <- app_comm_cons in Hr. cbn [render] in Hr |- *.
    destruct ch as [c | name | e]; [| | done].
    + destruct (render kwargs (cs1 ++ cs2)) as [e | out'] eqn:Hrest; [done |].
      injection Hr as <-.
      destruct (IH out' eq_refl) as (out1 & out2 & -> & H2 & ->).
      exists (String c out1), out2. by repeat split.
    + destruct (get_value kwargs name) as [e | v]; [done |].
      destruct (render kwargs (cs1 ++ cs2)) as [e | out'] eqn:Hrest; [done |].
      injection Hr as <-.
      destruct (IH out' eq_refl) as (out1 & out2 & -> & H2 & ->).
      exists (format_value v +:+ out1), out2.
      split; [reflexivity |]. split; [exact H2 |]. by rewrite str_app_assoc.
Qed.

(** The part of the template after its third placeholder, rendered for the
    baseline configuration: it does not depend on the other arguments. *)
Lemma baseline_prompt_tail (topic concept concept_description : string) :
  ∃ tail,
    render (prompt_kwargs topic concept concept_description (mkQuestionConfig 2 2 1 0 0))
      (drop 334 (markup None DYNAMIC_PROMPT_TEMPLATE)) = inr tail ∧
    str_in ("Generate EXACTLY 5 questions with the following distribution:"
            +:+ newline
            +:+ "2 Multiple Choice (MCQ), 2 True/False, 1 Fill in the Blank"
            +:+ newline) tail = true ∧
    str_in " EXACTLY 5 questions provided with the specified distribution" tail = true.
Proof.
  eexists. split; [vm_compute; reflexivity |].
  split; vm_compute; reflexivity.
Qed.

(** The prompt of the baseline configuration holds its two lines about the
    number of questions and its distribution. *)
Lemma baseline_prompt (topic concept concept_description : string) :
  ∃ prompt,
    generate_content_prompt topic concept concept_description
      (Some (mkQuestionConfig 2 2 1 0 0)) = ([EvFormat], inr prompt) ∧
    str_in ("Generate EXACTLY 5 questions with the following distribution:"
            +:+ newline
            +:+ "2 Multiple Choice (MCQ), 2 True/False, 1 Fill in the Blank"
            +:+ newline) prompt = true ∧
    str_in " EXACTLY 5 questions provided with the specified distribution" prompt
    = true.
Proof.
  destruct (format_template topic concept concept_description
              (mkQuestionConfig 2 2 1 0 0)) as (prompt & Hp & _).
  exists prompt. split.
  { rewrite generate_content_prompt_Some.
    change (total_questions (mkQuestionConfig 2 2 1 0 0) =? 0) with false.
    cbv iota. by rewrite Hp. }
  unfold str_format in Hp.
  rewrite <- (take_drop 334 (markup None DYNAMIC_PROMPT_TEMPLATE)) in Hp.
  apply render_app in Hp as (head & tail & _ & Htail & ->).
  destruct (baseline_prompt_tail topic concept concept_description)
    as (tail' & Htail' & Hlines & Hcheck).
  rewrite Htail in Htail'. injection Htail' as <-.
  split.
  - apply str_in_contains, contains_app_r. by apply str_in_contains.
  - apply str_in_contains, contains_app_r. by apply str_in_contains.
Qed.

(** The run without a configuration, with a credential present. *)
Lemma baseline_request (w : World) (topic concept concept_description prompt : string)
    (openrouter_key cerebras_key : string) :
  generate_content_prompt topic concept concept_description
    (Some (mkQuestionConfig 2 2 1 0 0)) = ([EvFormat], inr prompt) →
  get_api_key w = (openrouter_key, cerebras_key) →
  openrouter_key ≠ "" ∨ cerebras_key ≠ "" →
  let llm := if str_bool openrouter_key then openrouter_llm openrouter_key
             else cerebras_llm cerebras_key in
  let rq := {| rq_client := llm; rq_topic := topic; rq_concept := concept;
               rq_num := 5; rq_prompt_template := prompt |} in
  generate_learning_content w topic concept concept_description None
  = ([EvChatOpenAI llm; EvEduchain llm; EvFormat; EvGenerateQuestions rq],
     reply_outcome w rq).
Proof.
  intros Hbuilt Hkeys Hsome llm rq.
  destruct (generate_learning_content_sends w topic concept concept_description
              None _ _ Hkeys Hsome) as (prompt' & Hbuilt' & Hrun); [discriminate |].
  change (config_or_default None) with (mkQuestionConfig 2 2 1 0 0) in Hbuilt', Hrun.
  rewrite Hbuilt in Hbuilt'. injection Hbuilt' as <-.
  exact Hrun.
Qed.

Lemma sent_requests (run : M py_object) (llm : ChatOpenAI) (rq : GenerateRequest)
    (outcome : exception + py_object) :
  run = ([EvChatOpenAI llm; EvEduchain llm; EvFormat; EvGenerateQuestions rq], outcome) →
  requests_in run.1 = [rq].
Proof. by intros ->. Qed.

(** C9: with the configuration omitted, the prompt builder and the generator
    behave as with the baseline configuration (2, 2, 1, 0, 0), which is what
    the constructor without arguments returns and whose total is 5.  The
    prompt built without a configuration asks for exactly 5 questions, with
    the distribution "2 Multiple Choice (MCQ), 2 True/False, 1 Fill in the
    Blank", and with a credential present the generator sends one request
    that carries this prompt and the number 5. *)
Theorem omitted_config_is_baseline (w : World)
    (topic concept concept_description : string) :
  generate_content_prompt topic concept concept_description None
  = generate_content_prompt topic concept concept_description
      (Some (mkQuestionConfig 2 2 1 0 0)) ∧
  generate_learning_content w topic concept concept_description None
  = generate_learning_content w topic concept concept_description
      (Some (mkQuestionConfig 2 2 1 0 0)) ∧
  QuestionConfig_new ∅ = inr (mkQuestionConfig 2 2 1 0 0) ∧
  total_questions (mkQuestionConfig 2 2 1 0 0) = 5 ∧
  ∃ prompt,
    generate_content_prompt topic concept concept_description None
    = ([EvFormat], inr prompt) ∧
    str_in ("Generate EXACTLY 5 questions with the following distribution:"
            +:+ newline
            +:+ "2 Multiple Choice (MCQ), 2 True/False, 1 Fill in the Blank"
            +:+ newline) prompt = true ∧
    str_in " EXACTLY 5 questions provided with the specified distribution" prompt
    = true ∧
    ∀ openrouter_key cerebras_key,
      get_api_key w = (openrouter_key, cerebras_key) →
      openrouter_key ≠ "" ∨ cerebras_key ≠ "" →
      let llm := if str_bool openrouter_key then openrouter_llm openrouter_key
                 else cerebras_llm cerebras_key in
      let rq := {| rq_client := llm; rq_topic := topic; rq_concept := concept;
                   rq_num := 5; rq_prompt_template := prompt |} in
      generate_learning_content w topic concept concept_description None
      = ([EvChatOpenAI llm; EvEduchain llm; EvFormat; EvGenerateQuestions rq],
         reply_outcome w rq).
Proof.
  split; [apply generate_content_prompt_None |].
  split.
  { unfold generate_learning_content. rewrite QuestionConfig_new_default.
    reflexivity. }
  split; [reflexivity |]. split; [reflexivity |].
  destruct (baseline_prompt topic concept concept_description)
    as (prompt & Hbuilt & Hlines & Hcheck).
  exists prompt. split; [by rewrite generate_content_prompt_None |].
  split; [exact Hlines |]. split; [exact Hcheck |].
  intros openrouter_key cerebras_key Hkeys Hsome.
  by apply baseline_request.
Qed.

Lemma omitted_config_is_baseline_witness :
  ∃ prompt,
    str_in " EXACTLY 5 questions provided with the specified distribution" prompt
    = true ∧
    requests_in
      (generate_learning_content world_empty_lesson "Psychology" "Growth Mindset"
         "Why" None).1
    = [{| rq_client := cerebras_llm "csk"; rq_topic := "Psychology";
          rq_concept := "Growth Mindset"; rq_num := 5;
          rq_prompt_template := prompt |}].
Proof.
  destruct (omitted_config_is_baseline world_empty_lesson "Psychology"
              "Growth Mindset" "Why")
    as (_ & _ & _ & _ & prompt & _ & _ & Hcheck & Hrun).
  exists prompt. split; [exact Hcheck |].
  assert (get_api_key world_empty_lesson = ("", "csk")) as Hkeys by reflexivity.
  assert ("" ≠ "" ∨ "csk" ≠ "") as Hsome by (right; discriminate).
  exact (sent_requests _ _ _ _ (Hrun "" "csk" Hkeys Hsome)).
Defined.

(** C6, as the code has it: an object is returned only if it is truthy and
    has a [pre_read] attribute; when the reply to the request is an object
    that fails this check, the empty-response error raised inside the [try]
    block reaches the caller re-raised by the handler as a plain exception
    with the message "Error in content generation: LLM returned empty or
    invalid response". *)
Theorem generate_learning_content_checks_result (w : World)
    (topic concept concept_description : string)
    (question_config : option QuestionConfig) :
  let run :=
    generate_learning_content w topic concept concept_description question_config in
  (∀ result, run.2 = inr result →
     py_bool result = true ∧ hasattr result "pre_read" = true) ∧
  (∀ rq result, rq ∈ requests_in run.1 → llm_reply w rq = inr result →
     py_bool result = false ∨ hasattr result "pre_read" = false →
     run.2 = inl (Exception
                    "Error in content generation: LLM returned empty or invalid response")).
Proof.
  intros run.
  destruct (get_api_key w) as [openrouter_key cerebras_key] eqn:Hkeys.
  destruct (generate_learning_content_shape w topic concept concept_description
              question_config _ _ Hkeys)
    as [(_ & _ & Hrun) | (llm & _ & [Hrun | (rq & _ & Hrun)])];
    fold run in Hrun; rewrite Hrun; cbn [fst snd].
  - split; [done | by intros rq result ?%elem_of_nil].
  - split; [done | by intros rq result ?%elem_of_nil].
  - unfold reply_outcome, accepted. split.
    + intros result Hres.
      destruct (llm_reply w rq) as [msg | result']; [done |].
      destruct (py_bool result') eqn:Hb, (hasattr result' "pre_read") eqn:Ha;
        simpl in Hres; try done.
      by injection Hres as <-.
    + intros rq' result Hin Hreply Hbad.
      apply list_elem_of_singleton in Hin as ->. rewrite Hreply.
      by destruct Hbad as [-> | ->]; [| rewrite andb_false_r].
Qed.

Lemma generate_learning_content_checks_result_witness :
  (py_bool (PyContent empty_lesson) = true ∧
   hasattr (PyContent empty_lesson) "pre_read" = true) ∧
  (generate_learning_content world_none "Psychology" "Growth Mindset" "Why" None).2
  = inl (Exception "Error in content generation: LLM returned empty or invalid response").
Proof.
  split.
  - apply (proj1 (generate_learning_content_checks_result world_empty_lesson
                    "Psychology" "Growth Mindset" "Why" None)).
    vm_compute. reflexivity.
  - destruct (requests_in
                (generate_learning_content world_none "Psychology" "Growth Mindset"
                   "Why" None).1) as [| rq rest] eqn:Hrq.
    + vm_compute in Hrq. discriminate Hrq.
    + apply (proj2 (generate_learning_content_checks_result world_none
                      "Psychology" "Growth Mindset" "Why" None) rq PyNone).
      * rewrite Hrq. apply list_elem_of_here.
      * reflexivity.
      * left. reflexivity.
Defined.

(** C6, against the claim as worded: a lesson whose [pre_read] is the empty
    text passes the check and is returned to the caller. *)
Lemma unpopulated_pre_read_is_returned :
  (generate_learning_content world_empty_lesson "Psychology" "Growth Mindset" "Why"
     None).2 = inr (PyContent empty_lesson) ∧
  pre_read empty_lesson = "" ∧
  ¬ (∀ w topic concept concept_description question_config content,
       (generate_learning_content w topic concept concept_description
          question_config).2 = inr (PyContent content) →
       pre_read content ≠ "").
Proof.
  assert ((generate_learning_content world_empty_lesson "Psychology" "Growth Mindset"
             "Why" None).2 = inr (PyContent empty_lesson)) as Hrun.
  { vm_compute. reflexivity. }
  split; [exact Hrun |]. split; [reflexivity |].
  intros Hall. by apply (Hall _ _ _ _ _ _ Hrun).
Qed.

(** ** Credentials and error hints on concrete inputs *)

(** The environment is read only when reading the secrets store raises: a
    store that exists without the keys yields two empty strings. *)
Example get_api_key_secrets_first :
  get_api_key {| secrets := Some {["CEREBRAS_API_KEY" := "csk"]};
                 environ := {["OPENROUTER_API_KEY" := "sk-env"]};
                 llm_reply := λ _, inr PyNone |}
  = ("", "csk").
Proof. reflexivity. Qed.

Example get_api_key_environment :
  get_api_key {| secrets := None;
                 environ := {["OPENROUTER_API_KEY" := "sk-env"]};
                 llm_reply := λ _, inr PyNone |}
  = ("sk-env", "").
Proof. reflexivity. Qed.

Example error_message_validation_hint :
  str_in "This usually means the LLM didn't return properly formatted content."
    (error_message (LibraryError "1 Validation Error for BiteSizedContent")) = true.
Proof. vm_compute. reflexivity. Qed.

Example error_message_api_hint :
  str_in "This appears to be an API-related error."
    (error_message (LibraryError "Invalid API key")) = true.
Proof. vm_compute. reflexivity. Qed.

Example error_message_no_hint :
  error_message EmptyResponseError
  = "Error in content generation: LLM returned empty or invalid response".
Proof. vm_compute. reflexivity. Qed.

(** * Further properties of [microlesson.py] *)

(** ** The constructor *)

(** X1: a configuration the constructor returns carries the validated
    values (the keyword argument, or the default of the field), all its
    counts are non-negative and so is its total. *)
Theorem QuestionConfig_new_invariant (kwargs : gmap string Z) (cfg : QuestionConfig) :
  QuestionConfig_new kwargs = inr cfg →
  counts cfg = constructor_counts kwargs ∧
  Forall (λ n, 0 ≤ n) (counts cfg) ∧
  0 ≤ total_questions cfg.
Proof.
  unfold QuestionConfig_new, constructor_counts, check_ge0.
  generalize (field_value kwargs "mcq" 2) (field_value kwargs "true_false" 2)
    (field_value kwargs "fill_blank" 1) (field_value kwargs "matching" 0)
    (field_value kwargs "ordering" 0).
  intros a b c d e. cbv zeta.
  destruct (Z.ltb_spec a 0), (Z.ltb_spec b 0), (Z.ltb_spec c 0),
    (Z.ltb_spec d 0), (Z.ltb_spec e 0);
    simpl; intros Hnew; try discriminate Hnew.
  injection Hnew as <-. unfold counts, total_questions. simpl.
  split; [reflexivity |]. split; [| lia].
  repeat (apply Forall_cons; split; [assumption |]). apply Forall_nil_2.
Qed.

Lemma QuestionConfig_new_invariant_witness :
  counts (mkQuestionConfig 4 1 0 2 0)
  = constructor_counts (list_to_map [("mcq", 4); ("true_false", 1);
                                     ("fill_blank", 0); ("matching", 2)]) ∧
  Forall (λ n, 0 ≤ n) (counts (mkQuestionConfig 4 1 0 2 0)) ∧
  0 ≤ total_questions (mkQuestionConfig 4 1 0 2 0).
Proof.
  apply QuestionConfig_new_invariant. reflexivity.
Defined.

Lemma check_ge0_filter (name : string) (v : Z) :
  check_ge0 name v = (filter (λ p : string * Z, p.2 < 0) [(name, v)]).*1.
Proof.
  unfold check_ge0. rewrite filter_cons, filter_nil. cbn [snd].
  case_decide; destruct (Z.ltb_spec v 0); try lia; reflexivity.
Qed.

(** X2: when the constructor fails, the validation error names exactly the
    fields whose value is negative, in declaration order; it fails exactly
    when there is such a field. *)
Theorem QuestionConfig_new_error_fields (kwargs : gmap string Z) :
  (negative_fields kwargs ≠ [] →
   QuestionConfig_new kwargs = inl (ValidationError (negative_fields kwargs))) ∧
  (negative_fields kwargs = [] → ∃ cfg, QuestionConfig_new kwargs = inr cfg).
Proof.
  assert (check_ge0 "mcq" (field_value kwargs "mcq" 2)
          ++ check_ge0 "true_false" (field_value kwargs "true_false" 2)
          ++ check_ge0 "fill_blank" (field_value kwargs "fill_blank" 1)
          ++ check_ge0 "matching" (field_value kwargs "matching" 0)
          ++ check_ge0 "ordering" (field_value kwargs "ordering" 0)
          = negative_fields kwargs) as Herrors.
  { rewrite !check_ge0_filter, <- !fmap_app, <- !filter_app. reflexivity. }
  unfold QuestionConfig_new. cbv zeta. rewrite Herrors.
  destruct (negative_fields kwargs) as [| name names]; split; try done.
  intros _. by eexists.
Qed.

Lemma QuestionConfig_new_error_fields_witness :
  QuestionConfig_new (list_to_map [("mcq", -2); ("true_false", 1); ("ordering", -1)])
  = inl (ValidationError ["mcq"; "ordering"]) ∧
  ∃ cfg, QuestionConfig_new (list_to_map [("mcq", 0); ("ordering", 3)]) = inr cfg.
Proof.
  split.
  - pose proof (proj1 (QuestionConfig_new_error_fields
                         (list_to_map [("mcq", -2); ("true_false", 1); ("ordering", -1)])))
      as Herr.
    assert (negative_fields
              (list_to_map [("mcq", -2); ("true_false", 1); ("ordering", -1)])
            = ["mcq"; "ordering"]) as Hneg.
    { vm_compute. reflexivity. }
    rewrite Hneg in Herr. apply Herr. discriminate.
  - apply (proj2 (QuestionConfig_new_error_fields
                    (list_to_map [("mcq", 0); ("ordering", 3)]))).
    vm_compute. reflexivity.
Defined.

(** ** The distribution string *)

Lemma str_app_not_empty (s1 s2 : string) : s2 ≠ "" → s1 +:+ s2 ≠ "".
Proof. destruct s1; [done |]. by rewrite str_app_cons. Qed.

Lemma concat_not_empty (sep x : string) (xs : list string) :
  x ≠ "" → String.concat sep (x :: xs) ≠ "".
Proof.
  intros Hx. destruct xs as [| y xs]; [done |].
  change (x +:+ sep +:+ String.concat sep (y :: xs) ≠ "").
  destruct x as [| c x]; [done |]. by rewrite str_app_cons.
Qed.

(** X3: the distribution string is empty exactly when no count is positive;
    for non-negative counts, exactly when the total is 0, which is the
    condition on which the prompt builder refuses the configuration. *)
Theorem to_prompt_string_empty_iff (self : QuestionConfig) :
  (to_prompt_string self = "" ↔ Forall (λ n, n ≤ 0) (counts self)) ∧
  (Forall (λ n, 0 ≤ n) (counts self) →
   (to_prompt_string self = "" ↔ total_questions self = 0)).
Proof.
  destruct self as [a b c d e].
  unfold to_prompt_string, counts, total_questions.
  cbn [mcq true_false fill_blank matching ordering].
  rewrite !Forall_cons, !Forall_nil.
  assert (∀ (n : Z) (label : string) xs,
             label ≠ "" → String.concat ", " ((pretty n +:+ label) :: xs) ≠ "")
    as Hne.
  { intros n label xs Hlabel. by apply concat_not_empty, str_app_not_empty. }
  destruct (Z.ltb_spec 0 a), (Z.ltb_spec 0 b), (Z.ltb_spec 0 c),
    (Z.ltb_spec 0 d), (Z.ltb_spec 0 e); cbn [app];
    (split; [split | intros Hnn; split]);
    try (intros; lia); try (intros; reflexivity);
    try (intros Hempty; exfalso; revert Hempty; by apply Hne).
Qed.

Lemma to_prompt_string_empty_iff_witness :
  total_questions (mkQuestionConfig 0 0 0 0 0) = 0 ∧
  to_prompt_string (mkQuestionConfig 0 0 2 0 0) ≠ "".
Proof.
  split.
  - apply (proj2 (to_prompt_string_empty_iff (mkQuestionConfig 0 0 0 0 0))).
    + unfold counts. simpl. repeat (apply Forall_cons; split; [lia |]).
      apply Forall_nil_2.
    + reflexivity.
  - intros Hempty.
    apply (proj1 (to_prompt_string_empty_iff (mkQuestionConfig 0 0 2 0 0))) in Hempty.
    unfold counts in Hempty. simpl in Hempty.
    apply Forall_cons in Hempty as [_ Hempty].
    apply Forall_cons in Hempty as [_ Hempty].
    apply Forall_cons in Hempty as [Hle _]. lia.
Defined.

(** ** The prompt *)

Lemma len_app (s1 s2 : string) : len (s1 +:+ s2) = len s1 + len s2.
Proof.
  unfold len. induction s1 as [| c s1 IH]; [done |].
  rewrite str_app_cons. cbn [String.length]. lia.
Qed.

(** The length of a rendered text: its literal characters, and the values
    of its fields. *)
Lemma render_length (kwargs : gmap string fmt_arg) (cs : list chunk) (out : string) :
  render kwargs cs = inr out →
  ∃ vs, Forall2 (λ name v, get_value kwargs name = inr v) (fields_of cs) vs ∧
        len out = literal_count cs + foldr (λ v acc, len (format_value v) + acc) 0 vs.
Proof.
  revert out. induction cs as [| ch cs IH]; intros out Hr; simpl in Hr.
  - injection Hr as <-. exists []. split; [constructor | reflexivity].
  - destruct ch as [c | name | e]; [| | done].
    + destruct (render kwargs cs) as [e | out']; [done |]. injection Hr as <-.
      destruct (IH out' eq_refl) as (vs & Hvs & Hlen).
      exists vs. split; [exact Hvs |].
      cbn [literal_count]. rewrite <- Z.add_assoc, <- Hlen.
      unfold len. cbn [String.length]. lia.
    + destruct (get_value kwargs name) as [e | v] eqn:Hv; [done |].
      destruct (render kwargs cs) as [e | out']; [done |]. injection Hr as <-.
      destruct (IH out' eq_refl) as (vs & Hvs & Hlen).
      exists (v :: vs). split; [by constructor |].
      cbn [literal_count foldr]. rewrite len_app, Hlen. lia.
Qed.

Lemma template_fields_in_order :
  fields_of (markup None DYNAMIC_PROMPT_TEMPLATE)
  = ["topic"; "concept"; "concept_description"; "total_questions";
     "question_distribution"; "total_questions"].
Proof. vm_compute. reflexivity. Qed.

Lemma template_literal_count :
  literal_count (markup None DYNAMIC_PROMPT_TEMPLATE) = 5585.
Proof. vm_compute. reflexivity. Qed.

(** X4: whenever the total is not 0 the builder returns a prompt that
    contains the topic, the concept and the concept description exactly as
    given, whatever characters they hold (braces included: the arguments are
    not read as markup). *)
Theorem generate_content_prompt_keeps_inputs
    (topic concept concept_description : string) (cfg : QuestionConfig) :
  total_questions cfg ≠ 0 →
  ∃ prompt,
    generate_content_prompt topic concept concept_description (Some cfg)
    = ([EvFormat], inr prompt) ∧
    str_in topic prompt = true ∧
    str_in concept prompt = true ∧
    str_in concept_description prompt = true.
Proof.
  intros Hne. rewrite generate_content_prompt_Some.
  destruct (Z.eqb_spec (total_questions cfg) 0) as [H0 | _]; [done |].
  destruct (format_template topic concept concept_description cfg)
    as (prompt & -> & Ht & Hc & Hd & _).
  exists prompt. split; [reflexivity |].
  by rewrite !str_in_contains.
Qed.

Lemma generate_content_prompt_keeps_inputs_witness :
  ∃ prompt,
    generate_content_prompt "{concept}" "a}b" "100% {{x}}"
      (Some (mkQuestionConfig 1 0 0 0 0))
    = ([EvFormat], inr prompt) ∧
    str_in "{concept}" prompt = true ∧
    str_in "a}b" prompt = true ∧
    str_in "100% {{x}}" prompt = true.
Proof.
  apply generate_content_prompt_keeps_inputs. vm_compute. discriminate.
Defined.

(** X5: the prompt is the fixed text of the template, 5585 bytes, with the
    topic, the concept, the description and the distribution string put in
    once each and the total twice: its length in bytes is the sum. *)
Theorem generate_content_prompt_length
    (topic concept concept_description : string) (cfg : QuestionConfig) :
  total_questions cfg ≠ 0 →
  ∃ prompt,
    generate_content_prompt topic concept concept_description (Some cfg)
    = ([EvFormat], inr prompt) ∧
    len prompt
    = 5585 + len topic + len concept + len concept_description
      + 2 * len (pretty (total_questions cfg)) + len (to_prompt_string cfg).
Proof.
  intros Hne. rewrite generate_content_prompt_Some.
  destruct (Z.eqb_spec (total_questions cfg) 0) as [H0 | _]; [done |].
  destruct (format_template topic concept concept_description cfg)
    as (prompt & Hp & _).
  rewrite Hp. exists prompt. split; [reflexivity |].
  unfold str_format in Hp. apply render_length in Hp as (vs & Hvs & ->).
  rewrite template_literal_count. rewrite template_fields_in_order in Hvs.
  apply Forall2_cons_inv_l in Hvs as (v1 & vs1 & H1 & Hvs & ->).
  apply Forall2_cons_inv_l in Hvs as (v2 & vs2 & H2 & Hvs & ->).
  apply Forall2_cons_inv_l in Hvs as (v3 & vs3 & H3 & Hvs & ->).
  apply Forall2_cons_inv_l in Hvs as (v4 & vs4 & H4 & Hvs & ->).
  apply Forall2_cons_inv_l in Hvs as (v5 & vs5 & H5 & Hvs & ->).
  apply Forall2_cons_inv_l in Hvs as (v6 & vs6 & H6 & Hvs & ->).
  apply Forall2_nil_inv_l in Hvs as ->.
  rewrite kwargs_topic in H1. rewrite kwargs_concept in H2.
  rewrite kwargs_concept_description in H3. rewrite kwargs_total_questions in H4, H6.
  rewrite kwargs_question_distribution in H5.
  injection H1 as <-. injection H2 as <-. injection H3 as <-.
  injection H4 as <-. injection H5 as <-. injection H6 as <-.
  cbn [foldr format_value]. lia.
Qed.

Lemma generate_content_prompt_length_witness :
  ∃ prompt,
    generate_content_prompt "Psychology" "Growth Mindset" "Why"
      (Some (mkQuestionConfig 12 0 0 0 0))
    = ([EvFormat], inr prompt) ∧
    len prompt = 5585 + 10 + 14 + 3 + 2 * 2 + 24.
Proof.
  apply (generate_content_prompt_length "Psychology" "Growth Mindset" "Why"
           (mkQuestionConfig 12 0 0 0 0)).
  vm_compute. discriminate.
Defined.

(** ** The generator *)

(** The message of the handler: the fixed prefix, the text of the exception,
    and at most one hint. *)
Lemma error_message_shape (e : exception) :
  ∃ hint, error_message e = "Error in content generation: " +:+ str_exc e +:+ hint ∧
          (hint = "" ∨ hint = validation_hint ∨ hint = api_hint).
Proof.
  unfold error_message.
  destruct (str_in "validation error" (lower (str_exc e)));
    [| destruct (str_in "api" (lower (str_exc e)))].
  - exists validation_hint. split; [| by right; left].
    unfold validation_hint. by rewrite !str_app_assoc.
  - exists api_hint. split; [| by right; right].
    unfold api_hint. by rewrite !str_app_assoc.
  - exists "". split; [| by left]. by rewrite str_app_nil_r.
Qed.

Lemma error_message_hint (e : exception) :
  error_message e
  = "Error in content generation: " +:+ str_exc e +:+ hint_for (str_exc e).
Proof.
  unfold error_message, hint_for.
  destruct (str_in "validation error" (lower (str_exc e)));
    [| destruct (str_in "api" (lower (str_exc e)))].
  - unfold validation_hint. by rewrite !str_app_assoc.
  - unfold api_hint. by rewrite !str_app_assoc.
  - by rewrite str_app_nil_r.
Qed.

(** X6: the errors of the generator are of three kinds only.  The missing
    credentials and the empty configuration are raised as they are, before
    any request.  Every other error comes after the one request was sent and
    is a plain exception: when the LLM library raised on that request, its
    message is "Error in content generation: ", the text of that very
    exception, and the hint chosen by the words of this text (none, the
    formatting hint or the API hint); when the reply to that request fails the
    check, its message is "Error in content generation: LLM returned empty or
    invalid response". *)
Theorem generate_learning_content_errors (w : World)
    (topic concept concept_description : string)
    (question_config : option QuestionConfig) (e : exception) :
  let run :=
    generate_learning_content w topic concept concept_description question_config in
  run.2 = inl e →
  (e = MissingCredentialsError ∧ run.1 = []) ∨
  (e = EmptyConfigurationError ∧ requests_in run.1 = []) ∨
  (∃ rq, requests_in run.1 = [rq] ∧
     ((∃ msg, llm_reply w rq = inl msg ∧
        e = Exception ("Error in content generation: " +:+ msg +:+ hint_for msg)) ∨
      (∃ result, llm_reply w rq = inr result ∧
        (py_bool result = false ∨ hasattr result "pre_read" = false) ∧
        e = Exception
              "Error in content generation: LLM returned empty or invalid response"))).
Proof.
  intros run.
  destruct (get_api_key w) as [openrouter_key cerebras_key] eqn:Hkeys.
  destruct (generate_learning_content_shape w topic concept concept_description
              question_config _ _ Hkeys)
    as [(_ & _ & Hrun) | (llm & _ & [Hrun | (rq & _ & Hrun)])];
    fold run in Hrun; rewrite Hrun; cbn [fst snd]; intros He.
  - left. by injection He as <-.
  - right; left. by injection He as <-.
  - right; right. exists rq. split; [reflexivity |].
    unfold reply_outcome, accepted in He.
    destruct (llm_reply w rq) as [msg | result].
    + left. exists msg. split; [reflexivity |].
      injection He as <-. by rewrite error_message_hint.
    + right. exists result. split; [reflexivity |].
      destruct (py_bool result) eqn:Hb; [destruct (hasattr result "pre_read") eqn:Ha |].
      * done.
      * split; [by right |]. by injection He as <-.
      * split; [by left |]. by injection He as <-.
Qed.

Lemma generate_learning_content_errors_witness :
  Exception (error_message (LibraryError "Invalid API key"))
  = Exception ("Error in content generation: " +:+ "Invalid API key" +:+ api_hint).
Proof.
  destruct (generate_learning_content_errors
              {| secrets := Some {["OPENROUTER_API_KEY" := "sk-or"]}; environ := ∅;
                 llm_reply := λ _, inl "Invalid API key" |}
              "Psychology" "Growth Mindset" "Why" None
              (Exception (error_message (LibraryError "Invalid API key"))))
    as [[Hno _] | [[Hno _] |
        (rq & _ & [(msg & Hreply & He) | (result & Hreply & _)])]].
  - vm_compute. reflexivity.
  - discriminate Hno.
  - discriminate Hno.
  - cbn [llm_reply] in Hreply. injection Hreply as <-. exact He.
  - discriminate Hreply.
Defined.

(** X7: an object the generator returns is the reply of the LLM library to
    the one request it sent, unchanged; that request goes to the one client
    constructed and carries the topic, the concept, the total of the
    configuration and the prompt of the prompt builder. *)
Theorem generate_learning_content_returns_reply (w : World)
    (topic concept concept_description : string)
    (question_config : option QuestionConfig) (result : py_object) :
  let run :=
    generate_learning_content w topic concept concept_description question_config in
  let cfg := config_or_default question_config in
  run.2 = inr result →
  ∃ llm prompt,
    generate_content_prompt topic concept concept_description (Some cfg)
    = ([EvFormat], inr prompt) ∧
    run.1 = [EvChatOpenAI llm; EvEduchain llm; EvFormat;
             EvGenerateQuestions
               {| rq_client := llm; rq_topic := topic; rq_concept := concept;
                  rq_num := total_questions cfg; rq_prompt_template := prompt |}] ∧
    llm_reply w {| rq_client := llm; rq_topic := topic; rq_concept := concept;
                   rq_num := total_questions cfg; rq_prompt_template := prompt |}
    = inr result.
Proof.
  intros run cfg Hres.
  destruct (get_api_key w) as [openrouter_key cerebras_key] eqn:Hkeys.
  assert (∃ llm,
            str_bool openrouter_key = true ∧ llm = openrouter_llm openrouter_key ∨
            str_bool openrouter_key = false ∧ str_bool cerebras_key = true ∧
              llm = cerebras_llm cerebras_key) as [llm Hllm].
  { destruct (str_bool openrouter_key) eqn:Ho; [by eexists; left |].
    destruct (str_bool cerebras_key) eqn:Hc; [by eexists; right |].
    apply str_bool_false in Ho, Hc. subst.
    subst run.
    by rewrite (generate_learning_content_no_key w topic concept concept_description
                  question_config Hkeys) in Hres. }
  destruct (generate_learning_content_with w topic concept concept_description
              question_config _ _ llm Hkeys Hllm)
    as [[_ Hrun] | (prompt & Hp & Hrun)];
    fold run in Hrun; rewrite Hrun in Hres |- *; cbn [fst snd] in *; [done |].
  exists llm, prompt. split; [exact Hp |]. split; [reflexivity |].
  unfold reply_outcome, request_of in Hres.
  fold cfg in Hres.
  destruct (llm_reply w _) as [msg | result'] eqn:Hreply; [done |].
  destruct (accepted result'); [| done]. by injection Hres as <-.
Qed.

Lemma generate_learning_content_returns_reply_witness :
  ∃ llm prompt,
    (generate_learning_content world_empty_lesson "Psychology" "Growth Mindset" "Why"
       (Some (mkQuestionConfig 3 2 0 0 0))).1
    = [EvChatOpenAI llm; EvEduchain llm; EvFormat;
       EvGenerateQuestions
         {| rq_client := llm; rq_topic := "Psychology"; rq_concept := "Growth Mindset";
            rq_num := 5; rq_prompt_template := prompt |}].
Proof.
  destruct (generate_learning_content_returns_reply world_empty_lesson
              "Psychology" "Growth Mindset" "Why"
              (Some (mkQuestionConfig 3 2 0 0 0)) (PyContent empty_lesson))
    as (llm & prompt & _ & Htrace & _).
  - vm_compute. reflexivity.
  - exists llm, prompt. exact Htrace.
Defined.

(** X8: the credentials are looked at before the configuration.  With a
    credential present and a configuration whose total is 0, the client is
    constructed first and the empty-configuration error is raised afterwards,
    as it is (not re-raised by the handler), with the template not formatted
    and no request sent. *)
Theorem generate_learning_content_empty_configuration (w : World)
    (topic concept concept_description : string)
    (question_config : option QuestionConfig)
    (openrouter_key cerebras_key : string) :
  get_api_key w = (openrouter_key, cerebras_key) →
  openrouter_key ≠ "" ∨ cerebras_key ≠ "" →
  total_questions (config_or_default question_config) = 0 →
  ∃ llm,
    generate_learning_content w topic concept concept_description question_config
    = ([EvChatOpenAI llm; EvEduchain llm], inl EmptyConfigurationError) ∧
    (llm = openrouter_llm openrouter_key ∨ llm = cerebras_llm cerebras_key).
Proof.
  intros Hkeys Hsome Hzero.
  destruct (generate_learning_content_shape w topic concept concept_description
              question_config _ _ Hkeys)
    as [(-> & -> & _) | (llm & Hllm & Hrun)].
  - by destruct Hsome.
  - exists llm. split; [| destruct Hllm as [[_ ->] | (_ & _ & ->)]; [by left | by right]].
    destruct Hrun as [Hrun | (rq & Hrq & Hrun)]; [exact Hrun |].
    exfalso.
    assert (str_bool openrouter_key = true ∧ llm = openrouter_llm openrouter_key ∨
            str_bool openrouter_key = false ∧ str_bool cerebras_key = true ∧
              llm = cerebras_llm cerebras_key) as Hsel.
    { destruct Hllm as [[Ho ->] | (Ho & Hc & ->)].
      - left. by rewrite str_bool_true.
      - right. by rewrite str_bool_false, str_bool_true. }
    destruct (generate_learning_content_with w topic concept concept_description
                question_config _ _ llm Hkeys Hsel)
      as [[_ Hrun'] | (prompt & Hp & _)].
    + rewrite Hrun' in Hrun. discriminate Hrun.
    + rewrite generate_content_prompt_Some, Hzero in Hp. discriminate Hp.
Qed.

Lemma generate_learning_content_empty_configuration_witness :
  ∃ llm,
    generate_learning_content world_none "Psychology" "Growth Mindset" "Why"
      (Some (mkQuestionConfig 0 0 0 0 0))
    = ([EvChatOpenAI llm; EvEduchain llm], inl EmptyConfigurationError) ∧
    (llm = openrouter_llm "" ∨ llm = cerebras_llm "csk").
Proof.
  apply (generate_learning_content_empty_configuration world_none "Psychology"
           "Growth Mindset" "Why" (Some (mkQuestionConfig 0 0 0 0 0)) "" "csk").
  - reflexivity.
  - right. discriminate.
  - reflexivity.
Defined.

(** X9: the environment is a fallback for a secrets store that cannot be
    read, not for a key that is missing from it.  When the store can be read
    and holds neither key (or holds them empty), the generator raises the
    missing-credentials error whatever the environment holds; when the store
    cannot be read, the keys are those of the environment. *)
Theorem credentials_store_before_environment (w : World)
    (topic concept concept_description : string)
    (question_config : option QuestionConfig) :
  (∀ store,
     secrets w = Some store →
     default "" (store !! "OPENROUTER_API_KEY") = "" →
     default "" (store !! "CEREBRAS_API_KEY") = "" →
     generate_learning_content w topic concept concept_description question_config
     = ([], inl MissingCredentialsError)) ∧
  (secrets w = None →
   get_api_key w = (default "" (environ w !! "OPENROUTER_API_KEY"),
                    default "" (environ w !! "CEREBRAS_API_KEY"))).
Proof.
  split.
  - intros store Hstore Ho Hc.
    apply generate_learning_content_no_key.
    unfold get_api_key. by rewrite Hstore, Ho, Hc.
  - intros Hnone. unfold get_api_key. by rewrite Hnone.
Qed.

Lemma credentials_store_before_environment_witness :
  generate_learning_content
    {| secrets := Some {["UNRELATED" := "x"]};
       environ := {["OPENROUTER_API_KEY" := "sk-env"; "CEREBRAS_API_KEY" := "csk-env"]};
       llm_reply := λ _, inr (PyContent empty_lesson) |}
    "Psychology" "Growth Mindset" "Why" None
  = ([], inl MissingCredentialsError).
Proof.
  apply (proj1 (credentials_store_before_environment _ _ _ _ _)
           {["UNRELATED" := "x"]}); reflexivity.
Defined.

(** * Properties of [app.py] *)

(** ** The text export *)

Lemma question_title_read (q : Question) :
  question_type q ≠ "matching" →
  (if question_hasattr q "question_text"
   then question_getattr q "question_text"
   else question_getattr q "statement") = inr (question_title q).
Proof. intros Hq. destruct q; [reflexivity.. | by destruct Hq | reflexivity]. Qed.

Lemma question_explanation_read (q : Question) :
  question_hasattr q "explanation" = true ∧
  question_getattr q "explanation" = inr (question_explanation q).
Proof. destruct q; split; reflexivity. Qed.

Lemma add_questions_step (i : Z) (q : Question) (qs : list Question) (acc : string) :
  question_type q ≠ "matching" →
  add_questions i (q :: qs) acc
  = add_questions (i + 1) qs (acc +:+ question_entry i q).
Proof.
  intros Hq. cbn [add_questions].
  rewrite (question_title_read q Hq).
  destruct (question_explanation_read q) as [-> ->].
  unfold question_entry. by rewrite !str_app_assoc.
Qed.

Lemma add_questions_matching (i : Z) (instruction : string) (pairs : list MatchingPair)
    (explanation : string) (qs : list Question) (acc : string) :
  add_questions i (MatchingQuestion instruction pairs explanation :: qs) acc
  = inl (AttributeError "MatchingQuestion" "statement").
Proof. reflexivity. Qed.

Lemma add_questions_cases (i : Z) (qs : list Question) (acc : string) :
  (Forall (λ q, question_type q ≠ "matching") qs ∧
   add_questions i qs acc = inr (acc +:+ question_entries i qs)) ∨
  (Exists (λ q, question_type q = "matching") qs ∧
   add_questions i qs acc = inl (AttributeError "MatchingQuestion" "statement")).
Proof.
  revert i acc. induction qs as [| q qs IH]; intros i acc.
  - left. split; [constructor |]. cbn [add_questions question_entries].
    by rewrite str_app_nil_r.
  - destruct (decide (question_type q = "matching")) as [Hq | Hq].
    + right. split; [by apply Exists_cons_hd |].
      destruct q; try discriminate Hq. apply add_questions_matching.
    + rewrite (add_questions_step i q qs acc Hq).
      destruct (IH (i + 1) (acc +:+ question_entry i q)) as [[Hall ->] | [Hex ->]].
      * left. split; [by constructor |].
        cbn [question_entries]. by rewrite str_app_assoc.
      * right. split; [by apply Exists_cons_tl | reflexivity].
Qed.

Lemma add_summary_entries (i : Z) (points : list string) (acc : string) :
  add_summary i points acc = acc +:+ summary_entries i points.
Proof.
  revert i acc. induction points as [| point points IH]; intros i acc.
  - cbn [add_summary summary_entries]. by rewrite str_app_nil_r.
  - cbn [add_summary summary_entries]. rewrite IH. unfold summary_entry.
    by rewrite !str_app_assoc.
Qed.

Lemma question_entries_contains (i : Z) (qs : list Question) (k : nat) (q : Question) :
  qs !! k = Some q →
  contains (question_entry (i + Z.of_nat k) q) (question_entries i qs).
Proof.
  revert i k. induction qs as [| q' qs IH]; intros i k Hk; [done |].
  destruct k as [| k]; cbn [question_entries].
  - injection Hk as ->. rewrite Z.add_0_r. apply contains_app_l, contains_refl.
  - apply contains_app_r.
    replace (i + Z.of_nat (S k)) with ((i + 1) + Z.of_nat k) by lia.
    by apply IH.
Qed.

Lemma summary_entries_contains (i : Z) (points : list string) (k : nat) (point : string) :
  points !! k = Some point →
  contains (summary_entry (i + Z.of_nat k) point) (summary_entries i points).
Proof.
  revert i k. induction points as [| p points IH]; intros i k Hk; [done |].
  destruct k as [| k]; cbn [summary_entries].
  - injection Hk as ->. rewrite Z.add_0_r. apply contains_app_l, contains_refl.
  - apply contains_app_r.
    replace (i + Z.of_nat (S k)) with ((i + 1) + Z.of_nat k) by lia.
    by apply IH.
Qed.

(** X10: the text export fails exactly on a lesson that has a matching
    question: such a question has neither [question_text] nor [statement],
    and reading [statement] raises the attribute error; no other error can
    occur. *)
Theorem download_text_fails_on_matching (content : BiteSizedContent) :
  (Exists (λ q, question_type q = "matching") (questions content) ↔
   download_text content = inl (AttributeError "MatchingQuestion" "statement")) ∧
  (Forall (λ q, question_type q ≠ "matching") (questions content) ↔
   ∃ text, download_text content = inr text).
Proof.
  unfold download_text.
  destruct (add_questions_cases 1 (questions content) (download_header content))
    as [[Hall ->] | [Hex ->]].
  - split; split.
    + intros Hex. apply Exists_exists in Hex as (q & Hin & Hq).
      rewrite Forall_forall in Hall. by destruct (Hall q Hin).
    + done.
    + intros _. by eexists.
    + done.
  - split; split; try done.
    + intros Hall. apply Exists_exists in Hex as (q & Hin & Hq).
      rewrite Forall_forall in Hall. by destruct (Hall q Hin).
    + by intros [text ?].
Qed.

Lemma download_text_fails_on_matching_witness :
  download_text
    {| pre_read := "Hook"; 
       questions := [TrueFalseQuestion "Tasks linger" true "Because";
                     MatchingQuestion "Match" [] "Pairs"];
       summary := ["One"]; tags := ["a"; "b"];
       concept_name := "Growth Mindset"; topic := "Psychology";
       estimated_time := 5; difficulty_level := "beginner" |}
  = inl (AttributeError "MatchingQuestion" "statement").
Proof.
  apply download_text_fails_on_matching.
  apply Exists_cons_tl, Exists_cons_hd. reflexivity.
Defined.

(** X11: on a lesson without a matching question the export is the header
    with the pre-read, one entry per question numbered from 1 (its text, or
    its statement for a true/false question, then its explanation), the
    summary points numbered from 1, and the tags joined with a comma and a
    space at the very end. *)
Theorem download_text_layout (content : BiteSizedContent) :
  Forall (λ q, question_type q ≠ "matching") (questions content) →
  ∃ text,
    download_text content = inr text ∧
    text = download_header content
           +:+ question_entries 1 (questions content)
           +:+ newline +:+ "## Summary" +:+ newline
           +:+ summary_entries 1 (summary content)
           +:+ newline +:+ "## Tags" +:+ newline
           +:+ String.concat ", " (tags content) ∧
    contains (pre_read content) text ∧
    (∀ k q, questions content !! k = Some q →
       contains (question_entry (Z.of_nat k + 1) q) text) ∧
    (∀ k point, summary content !! k = Some point →
       contains (summary_entry (Z.of_nat k + 1) point) text).
Proof.
  intros Hall. unfold download_text.
  destruct (add_questions_cases 1 (questions content) (download_header content))
    as [[_ ->] | [Hex _]].
  2: { apply Exists_exists in Hex as (q & Hin & Hq).
       rewrite Forall_forall in Hall. by destruct (Hall q Hin). }
  eexists. split; [reflexivity |].
  rewrite add_summary_entries.
  split; [by rewrite !str_app_assoc |].
  rewrite !str_app_assoc.
  split; [| split].
  - apply contains_app_l. unfold download_header.
    do 17 apply contains_app_r. apply contains_app_l, contains_refl.
  - intros k q Hk. apply contains_app_r, contains_app_l.
    rewrite Z.add_comm. by apply question_entries_contains.
  - intros k point Hk. do 5 apply contains_app_r. apply contains_app_l.
    rewrite Z.add_comm. by apply summary_entries_contains.
Qed.

Lemma download_text_layout_witness :
  ∃ text,
    download_text
      {| pre_read := "Hook";
         questions := [TrueFalseQuestion "Tasks linger" true "Because";
                       MCQQuestion "Which?" [] "This one"];
         summary := ["One"]; tags := ["a"; "b"];
         concept_name := "Growth Mindset"; topic := "Psychology";
         estimated_time := 5; difficulty_level := "beginner" |} = inr text ∧
    contains (question_entry 2 (MCQQuestion "Which?" [] "This one")) text.
Proof.
  destruct (download_text_layout
              {| pre_read := "Hook";
                 questions := [TrueFalseQuestion "Tasks linger" true "Because";
                               MCQQuestion "Which?" [] "This one"];
                 summary := ["One"]; tags := ["a"; "b"];
                 concept_name := "Growth Mindset"; topic := "Psychology";
                 estimated_time := 5; difficulty_level := "beginner" |})
    as (text & Htext & _ & _ & Hq & _).
  - repeat (apply Forall_cons; split; [discriminate |]). apply Forall_nil_2.
  - exists text. split; [exact Htext |]. apply (Hq 1%nat). reflexivity.
Defined.

Lemma replace_char_length (old new : ascii) (s : string) :
  String.length (replace_char old new s) = String.length s.
Proof. induction s as [| c s IH]; [done |]. cbn. by rewrite IH. Qed.

Lemma replace_char_removes (old new : ascii) (s : string) :
  old ≠ new → old ∉ list_ascii_of_string (replace_char old new s).
Proof.
  intros Hne. induction s as [| c s IH]; cbn [replace_char list_ascii_of_string].
  - apply not_elem_of_nil.
  - apply not_elem_of_cons. split; [| exact IH].
    destruct (Ascii.eqb_spec c old) as [-> | Hc]; [done | by intros ->].
Qed.

Lemma replace_char_get (old new : ascii) (s : string) (i : nat) :
  String.get i (replace_char old new s)
  = (λ c, if (c =? old)%char then new else c) <$> String.get i s.
Proof.
  revert i. induction s as [| c s IH]; intros i; [done |].
  destruct i as [| i]; [done |]. cbn [replace_char String.get]. apply IH.
Qed.

(** X12: the name of the exported file is the concept name with every space
    turned into an underscore, other characters and the length kept, followed
    by "_microlesson.txt": it holds no space.  Position by position, the part
    before the suffix has an underscore where the concept name has a space,
    and the character of the concept name everywhere else. *)
Theorem download_file_name_no_space (content : BiteSizedContent) :
  ∃ stem,
    download_file_name content = stem +:+ "_microlesson.txt" ∧
    String.length stem = String.length (concept_name content) ∧
    (" "%char ∉ list_ascii_of_string (download_file_name content)) ∧
    ∀ i : nat,
      String.get i stem
      = (λ c, if (c =? " ")%char then "_"%char else c)
          <$> String.get i (concept_name content).
Proof.
  exists (replace_char " " "_" (concept_name content)).
  split; [reflexivity |]. split; [apply replace_char_length |].
  split; [| intros i; apply replace_char_get].
  unfold download_file_name.
  assert (∀ s1 s2, list_ascii_of_string (s1 +:+ s2)
                   = list_ascii_of_string s1 ++ list_ascii_of_string s2) as Happ.
  { intros s1 s2. induction s1 as [| c s1 IH]; [done |].
    rewrite str_app_cons. cbn [list_ascii_of_string]. by rewrite IH. }
  rewrite Happ. apply not_elem_of_app. split.
  - by apply replace_char_removes.
  - apply (bool_decide_unpack _). vm_compute. exact I.
Qed.

Lemma download_file_name_no_space_witness :
  ∃ stem,
    download_file_name empty_lesson = stem +:+ "_microlesson.txt" ∧
    String.length stem = 14%nat ∧
    String.get 5 stem = Some "h"%char ∧
    String.get 6 stem = Some "_"%char ∧
    String.get 7 stem = Some "M"%char ∧
    String.get 14 stem = None.
Proof.
  destruct (download_file_name_no_space empty_lesson)
    as (stem & Hname & Hlen & _ & Hget).
  exists stem. split; [exact Hname |]. split; [exact Hlen |].
  rewrite !Hget. repeat split; reflexivity.
Defined.

(** ** The sidebar *)

Lemma sidebar_new (inp : SidebarInput) :
  Forall (λ n, 0 ≤ n) (counts (sidebar_config inp)) →
  QuestionConfig_new (sidebar_kwargs inp) = inr (sidebar_config inp).
Proof.
  unfold counts, sidebar_config. cbn [mcq true_false fill_blank matching ordering].
  rewrite !Forall_cons. intros (Ha & Hb & Hc & Hd & He & _).
  unfold QuestionConfig_new.
  change (field_value (sidebar_kwargs inp) "mcq" 2) with (in_mcq inp).
  change (field_value (sidebar_kwargs inp) "true_false" 2) with (in_true_false inp).
  change (field_value (sidebar_kwargs inp) "fill_blank" 1) with (in_fill_blank inp).
  change (field_value (sidebar_kwargs inp) "matching" 0) with (in_matching inp).
  change (field_value (sidebar_kwargs inp) "ordering" 0) with (in_ordering inp).
  unfold check_ge0. cbv zeta.
  destruct (Z.ltb_spec (in_mcq inp) 0), (Z.ltb_spec (in_true_false inp) 0),
    (Z.ltb_spec (in_fill_blank inp) 0), (Z.ltb_spec (in_matching inp) 0),
    (Z.ltb_spec (in_ordering inp) 0); try lia.
  reflexivity.
Qed.

Lemma create_sidebar_some (inp : SidebarInput) (sidebar : list st_call)
    (topic concept concept_description : string) (cfg : QuestionConfig) :
  create_sidebar inp = (sidebar, inr (Some (topic, concept, concept_description, cfg))) →
  QuestionConfig_new (sidebar_kwargs inp) = inr cfg ∧ total_questions cfg ≠ 0 ∧
  topic = in_topic inp ∧ concept = in_concept inp ∧
  concept_description = in_concept_description inp.
Proof.
  unfold create_sidebar.
  destruct (QuestionConfig_new (sidebar_kwargs inp)) as [e | cfg']; [done |].
  destruct (Z.eqb_spec (total_questions cfg') 0) as [H0 | Hne]; [done |].
  intros Heq. injection Heq as _ <- <- <- <-. done.
Qed.

(** X13: with values the number inputs can return (0 to 10 for the first
    three, 0 to 5 for the last two), the sidebar never raises, the total is
    at most 40, and it refuses exactly the all-zero selection; the
    configuration it hands on has those counts and a total of at least 1, so
    the prompt builder accepts it. *)
Theorem create_sidebar_accepts (inp : SidebarInput) :
  widget_bounds inp →
  0 ≤ total_questions (sidebar_config inp) ≤ 40 ∧
  (total_questions (sidebar_config inp) = 0 ↔ counts (sidebar_config inp) = [0; 0; 0; 0; 0]) ∧
  (total_questions (sidebar_config inp) = 0 → (create_sidebar inp).2 = inr None) ∧
  (total_questions (sidebar_config inp) ≠ 0 →
   (create_sidebar inp).2
   = inr (Some (in_topic inp, in_concept inp, in_concept_description inp,
                sidebar_config inp)) ∧
   ∃ prompt,
     generate_content_prompt (in_topic inp) (in_concept inp)
       (in_concept_description inp) (Some (sidebar_config inp))
     = ([EvFormat], inr prompt)).
Proof.
  intros (Ha & Hb & Hc & Hd & He).
  assert (QuestionConfig_new (sidebar_kwargs inp) = inr (sidebar_config inp)) as Hnew.
  { apply sidebar_new. unfold counts, sidebar_config. simpl.
    repeat (apply Forall_cons; split; [lia |]). apply Forall_nil_2. }
  assert (total_questions (sidebar_config inp)
          = in_mcq inp + in_true_false inp + in_fill_blank inp + in_matching inp
            + in_ordering inp) as Htotal by reflexivity.
  assert (counts (sidebar_config inp)
          = [in_mcq inp; in_true_false inp; in_fill_blank inp; in_matching inp;
             in_ordering inp]) as Hcounts by reflexivity.
  split; [lia |]. split; [| split].
  - rewrite Hcounts. split; [intros Hz | intros Heq].
    + repeat f_equal; lia.
    + injection Heq as Ha0 Hb0 Hc0 Hd0 He0. lia.
  - intros Hz. unfold create_sidebar. by rewrite Hnew, Hz.
  - intros Hnz. unfold create_sidebar. rewrite Hnew.
    destruct (Z.eqb_spec (total_questions (sidebar_config inp)) 0) as [H0 | _]; [done |].
    split; [reflexivity |].
    rewrite generate_content_prompt_Some.
    destruct (Z.eqb_spec (total_questions (sidebar_config inp)) 0) as [H0 | _]; [done |].
    destruct (format_template (in_topic inp) (in_concept inp)
                (in_concept_description inp) (sidebar_config inp))
      as (prompt & -> & _).
    by exists prompt.
Qed.

Lemma create_sidebar_accepts_witness :
  (create_sidebar
     {| in_topic := "Psychology"; in_concept := "The Zeigarnik Effect";
        in_concept_description := "Why unfinished tasks bug your brain";
        in_mcq := 0; in_true_false := 0; in_fill_blank := 0;
        in_matching := 0; in_ordering := 0 |}).2 = inr None.
Proof.
  apply create_sidebar_accepts.
  - unfold widget_bounds. simpl. lia.
  - reflexivity.
Defined.

(** ** The generation step of [main] *)

Lemma generator_events_app (p1 p2 : list st_call) :
  generator_events (p1 ++ p2) = generator_events p1 ++ generator_events p2.
Proof. apply omap_app. Qed.

Lemma generator_events_fmap (tr : list event) :
  generator_events (StGenerator <$> tr) = tr.
Proof.
  induction tr as [| ev tr IH]; [done |].
  unfold generator_events in *. cbn. by rewrite IH.
Qed.

Lemma create_sidebar_no_generator (inp : SidebarInput) :
  generator_events (create_sidebar inp).1 = [].
Proof.
  unfold create_sidebar.
  destruct (QuestionConfig_new (sidebar_kwargs inp)) as [e | cfg]; [reflexivity |].
  destruct (total_questions cfg =? 0); reflexivity.
Qed.

Lemma check_api_configuration_content (w : World) (file_missing : bool)
    (ss : SessionState) :
  generated_content (check_api_configuration w file_missing ss).1
  = generated_content ss.
Proof.
  unfold check_api_configuration.
  destruct (secrets w) as [store |]; [| by destruct file_missing].
  by destruct (str_bool _ || str_bool _).
Qed.

Lemma check_api_configuration_true (w : World) (file_missing : bool)
    (ss ss' : SessionState) :
  check_api_configuration w file_missing ss = (ss', inr true) →
  ∃ openrouter_key cerebras_key,
    get_api_key w = (openrouter_key, cerebras_key) ∧
    (openrouter_key ≠ "" ∨ cerebras_key ≠ "").
Proof.
  unfold check_api_configuration, get_api_key.
  destruct (secrets w) as [store |]; [| by destruct file_missing].
  destruct (str_bool (default "" (store !! "OPENROUTER_API_KEY"))) eqn:Ho;
    [| destruct (str_bool (default "" (store !! "CEREBRAS_API_KEY"))) eqn:Hc];
    cbn [orb]; intros Heq; try done.
  - eexists _, _. split; [reflexivity |]. left. by apply str_bool_true.
  - eexists _, _. split; [reflexivity |]. right. by apply str_bool_true.
Qed.

(** The ways a run of [main] can go, with what each leaves behind. *)
Lemma main_cases (w : World) (file_missing : bool) (inp : SidebarInput)
    (generate_clicked : bool) (ss : SessionState) :
  let r := main w file_missing inp generate_clicked ss in
  let previous := generated_content (init_session_state ss) in
  (generator_events r.1.2 = [] ∧ generated_content r.1.1 = previous ∧
   (r.2 = inr ToDisplay → generate_clicked = false) ∧ r.2 ≠ inr ExitFailed) ∨
  (generate_clicked = true ∧
   ∃ ss1 sidebar cfg,
     check_api_configuration w file_missing (init_session_state ss) = (ss1, inr true) ∧
     create_sidebar inp
     = (sidebar, inr (Some (in_topic inp, in_concept inp,
                            in_concept_description inp, cfg))) ∧
     let run := generate_learning_content w (in_topic inp) (in_concept inp)
                  (in_concept_description inp) (Some cfg) in
     generator_events r.1.2 = run.1 ∧
     ((∃ content, run.2 = inr content ∧ r.2 = inr ToDisplay ∧
                  generated_content r.1.1 = Some content) ∨
      (∃ e, run.2 = inl e ∧ r.2 = inr ExitFailed ∧
            generated_content r.1.1 = previous ∧
            StOutput "error" (error_banner +:+ str_exc e) ∈ r.1.2 ∧
            StOutput "info" (error_tip e) ∈ r.1.2))).
Proof.
  intros r previous. subst r. unfold main.
  pose proof (check_api_configuration_content w file_missing (init_session_state ss))
    as Hkeep.
  destruct (check_api_configuration w file_missing (init_session_state ss))
    as [ss1 [e | [|]]] eqn:Hcheck; cbn [fst] in Hkeep.
  - left. cbn [fst snd]. by repeat split.
  - pose proof (create_sidebar_no_generator inp) as Hsb.
    destruct (create_sidebar inp) as [sidebar [e | [[[[topic concept] description] cfg] |]]]
      eqn:Hside; cbn [fst] in Hsb.
    + left. cbn [fst snd]. rewrite generator_events_app, Hsb. by repeat split.
    + apply create_sidebar_some in Hside as Hfields.
      destruct Hfields as (_ & _ & -> & -> & ->).
      destruct generate_clicked.
      * right. split; [reflexivity |]. exists ss1, sidebar, cfg.
        split; [reflexivity |]. split; [reflexivity |]. cbv zeta.
        destruct (generate_learning_content w (in_topic inp) (in_concept inp)
                    (in_concept_description inp) (Some cfg)) as [tr [e | content]];
          cbn [fst snd].
        -- rewrite !generator_events_app, Hsb, generator_events_fmap.
           unfold generator_events. cbn [omap list_omap app]. rewrite app_nil_r.
           split; [reflexivity |]. right. exists e.
           split; [reflexivity |]. split; [reflexivity |]. split; [exact Hkeep |].
           split; do 4 apply list_elem_of_further;
             (apply elem_of_app; right; apply elem_of_app; right).
           ++ apply list_elem_of_here.
           ++ apply list_elem_of_further, list_elem_of_here.
        -- rewrite !generator_events_app, Hsb, generator_events_fmap.
           unfold generator_events. cbn [omap list_omap app]. rewrite app_nil_r.
           split; [reflexivity |]. left. by exists content.
      * left. cbn [fst snd]. rewrite !generator_events_app, Hsb. by repeat split.
    + left. cbn [fst snd]. rewrite !generator_events_app, Hsb. by repeat split.
  - left. cbn [fst snd]. by repeat split.
Qed.

Lemma generate_learning_content_accepted (w : World)
    (topic concept concept_description : string)
    (question_config : option QuestionConfig) (result : py_object) :
  (generate_learning_content w topic concept concept_description question_config).2
  = inr result →
  accepted result = true.
Proof.
  destruct (get_api_key w) as [openrouter_key cerebras_key] eqn:Hkeys.
  destruct (generate_learning_content_shape w topic concept concept_description
              question_config _ _ Hkeys)
    as [(_ & _ & ->) | (llm & _ & [-> | (rq & _ & ->)])]; cbn [snd]; try done.
  unfold reply_outcome. destruct (llm_reply w rq) as [msg | result']; [done |].
  destruct (accepted result') eqn:Hacc; [| done]. by intros [= <-].
Qed.

(** With a credential and a total that is not 0, the generator gets as far
    as the request. *)
Lemma generate_learning_content_gated (w : World)
    (topic concept concept_description : string) (cfg : QuestionConfig)
    (openrouter_key cerebras_key : string) :
  get_api_key w = (openrouter_key, cerebras_key) →
  openrouter_key ≠ "" ∨ cerebras_key ≠ "" →
  total_questions cfg ≠ 0 →
  ∃ llm prompt,
    generate_learning_content w topic concept concept_description (Some cfg)
    = ([EvChatOpenAI llm; EvEduchain llm; EvFormat;
        EvGenerateQuestions (request_of llm topic concept cfg prompt)],
       reply_outcome w (request_of llm topic concept cfg prompt)).
Proof.
  intros Hkeys Hsome Hne.
  assert (∃ llm,
            str_bool openrouter_key = true ∧ llm = openrouter_llm openrouter_key ∨
            str_bool openrouter_key = false ∧ str_bool cerebras_key = true ∧
              llm = cerebras_llm cerebras_key) as [llm Hllm].
  { destruct (str_bool openrouter_key) eqn:Ho; [by eexists; left |].
    destruct (str_bool cerebras_key) eqn:Hc; [by eexists; right |].
    apply str_bool_false in Ho, Hc. by destruct Hsome. }
  destruct (generate_learning_content_with w topic concept concept_description
              (Some cfg) _ _ llm Hkeys Hllm)
    as [[H0 _] | (prompt & _ & Hrun)]; [done |].
  by exists llm, prompt.
Qed.

(** X14: a run of [main] changes the stored lesson only when the button was
    pressed and the generation succeeded, and then the stored object is
    truthy and has a [pre_read] attribute; a run that stops at the setup
    page, at the sidebar or on a failed generation, or in which the button
    was not pressed, leaves the lesson stored before in place. *)
Theorem main_stored_lesson (w : World) (file_missing : bool) (inp : SidebarInput)
    (generate_clicked : bool) (ss : SessionState) :
  let r := main w file_missing inp generate_clicked ss in
  let previous := generated_content (init_session_state ss) in
  (r.2 ≠ inr ToDisplay → generated_content r.1.1 = previous) ∧
  (generate_clicked = false → generated_content r.1.1 = previous) ∧
  (generate_clicked = true → r.2 = inr ToDisplay →
   ∃ content, generated_content r.1.1 = Some content ∧
              py_bool content = true ∧ hasattr content "pre_read" = true).
Proof.
  intros r previous.
  destruct (main_cases w file_missing inp generate_clicked ss)
    as [(_ & Hkeep & Hclick & _) |
        (-> & ss1 & sidebar & cfg & _ & _ & _ &
           [(content & Hrun & Hexit & Hstore) | (e & _ & Hexit & Hkeep & _ & _)])];
    fold r in Hkeep, Hclick || fold r in Hexit, Hstore || fold r in Hexit, Hkeep.
  - split; [done |]. split; [done |].
    intros -> Hexit. by specialize (Hclick Hexit).
  - split; [by rewrite Hexit |]. split; [done |].
    intros _ _. exists content. split; [exact Hstore |].
    apply generate_learning_content_accepted in Hrun.
    by apply andb_true_iff in Hrun.
  - split; [done |]. split; [done |].
    intros _. by rewrite Hexit.
Qed.

Lemma main_stored_lesson_witness :
  generated_content
    (main world_none true
       {| in_topic := "Psychology"; in_concept := "Growth Mindset";
          in_concept_description := "Why"; in_mcq := 2; in_true_false := 2;
          in_fill_blank := 1; in_matching := 0; in_ordering := 0 |}
       true
       {| generated_content := Some (PyContent empty_lesson);
          api_configured := Some true |}).1.1
  = Some (PyContent empty_lesson).
Proof.
  apply (proj1 (main_stored_lesson world_none true _ true
                  {| generated_content := Some (PyContent empty_lesson);
                     api_configured := Some true |})).
  vm_compute. discriminate.
Defined.

(** X15: a run of [main] sends at most one request to the LLM library, and
    sends one only if the button was pressed, the secrets store holds a
    non-empty key and the sidebar handed on a configuration with a total
    that is not 0. *)
Theorem main_requests (w : World) (file_missing : bool) (inp : SidebarInput)
    (generate_clicked : bool) (ss : SessionState) :
  let r := main w file_missing inp generate_clicked ss in
  (length (requests_in (generator_events r.1.2)) ≤ 1)%nat ∧
  (requests_in (generator_events r.1.2) ≠ [] →
   generate_clicked = true ∧
   (∃ store, secrets w = Some store ∧
      (default "" (store !! "OPENROUTER_API_KEY") ≠ "" ∨
       default "" (store !! "CEREBRAS_API_KEY") ≠ "")) ∧
   (∃ cfg, (create_sidebar inp).2
           = inr (Some (in_topic inp, in_concept inp, in_concept_description inp, cfg)) ∧
           total_questions cfg ≠ 0)).
Proof.
  intros r.
  destruct (main_cases w file_missing inp generate_clicked ss)
    as [(Hnone & _ & _ & _) |
        (-> & ss1 & sidebar & cfg & Hcheck & Hside & Hevents & _)];
    fold r in Hnone || fold r in Hevents.
  - rewrite Hnone. split; [simpl; lia | done].
  - rewrite Hevents.
    destruct (get_api_key w) as [openrouter_key cerebras_key] eqn:Hkeys.
    split.
    + destruct (generate_learning_content_shape w (in_topic inp) (in_concept inp)
                  (in_concept_description inp) (Some cfg) _ _ Hkeys)
        as [(_ & _ & ->) | (llm & _ & [-> | (rq & _ & ->)])]; simpl; lia.
    + intros _. split; [reflexivity |]. split.
      * unfold check_api_configuration in Hcheck.
        destruct (secrets w) as [store |]; [| by destruct file_missing].
        exists store. split; [reflexivity |].
        destruct (str_bool (default "" (store !! "OPENROUTER_API_KEY"))) eqn:Ho.
        -- left. by apply str_bool_true.
        -- destruct (str_bool (default "" (store !! "CEREBRAS_API_KEY"))) eqn:Hc;
             [| done].
           right. by apply str_bool_true.
      * exists cfg. rewrite Hside. split; [reflexivity |].
        by apply create_sidebar_some in Hside as (_ & Hne & _).
Qed.

Lemma main_requests_witness :
  let w := {| secrets := Some {["OPENROUTER_API_KEY" := "sk-or"]}; environ := ∅;
              llm_reply := λ _, inr PyNone |} in
  ∃ store, secrets w = Some store ∧
    (default "" (store !! "OPENROUTER_API_KEY") ≠ "" ∨
     default "" (store !! "CEREBRAS_API_KEY") ≠ "").
Proof.
  intros w.
  apply (proj2 (main_requests w true
                  {| in_topic := "Psychology"; in_concept := "Growth Mindset";
                     in_concept_description := "Why"; in_mcq := 1; in_true_false := 0;
                     in_fill_blank := 0; in_matching := 0; in_ordering := 0 |}
                  true
                  {| generated_content := None; api_configured := None |})).
  vm_compute. discriminate.
Defined.

Lemma error_boxes_app (p1 p2 : list st_call) :
  error_boxes (p1 ++ p2) = error_boxes p1 ++ error_boxes p2.
Proof. apply omap_app. Qed.

Lemma error_boxes_generator (tr : list event) :
  error_boxes (StGenerator <$> tr) = [].
Proof. induction tr as [| ev tr IH]; [done |]. exact IH. Qed.

Lemma create_sidebar_no_error_box (inp : SidebarInput) :
  error_boxes (create_sidebar inp).1 = [].
Proof.
  unfold create_sidebar.
  destruct (QuestionConfig_new (sidebar_kwargs inp)) as [e | cfg]; [reflexivity |].
  destruct (total_questions cfg =? 0); reflexivity.
Qed.

Lemma elem_error_boxes (page : list st_call) (text : string) :
  StOutput "error" text ∈ page ↔ text ∈ error_boxes page.
Proof.
  unfold error_boxes. rewrite list_elem_of_omap. split.
  - intros Hin. by exists (StOutput "error" text).
  - intros (c & Hin & Hc). destruct c as [| func text' | | |]; try done.
    case_bool_decide as Hfunc; [| done]. injection Hc as ->. by subst func.
Qed.

(** A run of [main] that does not end on a failed generation shows no error
    box, or the one of the setup page. *)
Lemma main_not_failed (w : World) (file_missing : bool) (inp : SidebarInput)
    (generate_clicked : bool) (ss : SessionState) :
  let r := main w file_missing inp generate_clicked ss in
  r.2 ≠ inr ExitFailed →
  error_boxes r.1.2 = [] ∨ error_boxes r.1.2 = [api_required_title].
Proof.
  intros r. subst r. unfold main.
  destruct (check_api_configuration w file_missing (init_session_state ss))
    as [ss1 [e | [|]]]; cbn [fst snd]; intros Hexit.
  - by left.
  - pose proof (create_sidebar_no_error_box inp) as Hsb.
    destruct (create_sidebar inp)
      as [sidebar [e | [[[[topic concept] description] cfg] |]]];
      cbn [fst] in Hsb; cbn [fst snd] in Hexit |- *.
    + left. by rewrite error_boxes_app, Hsb.
    + destruct generate_clicked.
      * destruct (generate_learning_content w topic concept description (Some cfg))
          as [tr [e | content]]; cbn [fst snd] in Hexit |- *; [done |].
        left. by rewrite !error_boxes_app, Hsb, error_boxes_generator.
      * cbn [fst snd]. left. by rewrite !error_boxes_app, Hsb.
    + left. by rewrite !error_boxes_app, Hsb.
  - by right.
Qed.

(** A run of [main] that ends on a failed generation had passed both gates:
    one request was sent, its outcome is the error, and the page has one
    error box, with the banner and the text of that error. *)
Lemma main_failed (w : World) (file_missing : bool) (inp : SidebarInput)
    (generate_clicked : bool) (ss : SessionState) :
  let r := main w file_missing inp generate_clicked ss in
  r.2 = inr ExitFailed →
  ∃ rq e,
    requests_in (generator_events r.1.2) = [rq] ∧
    reply_outcome w rq = inl e ∧
    error_boxes r.1.2 = [error_banner +:+ str_exc e].
Proof.
  intros r. subst r. unfold main.
  destruct (check_api_configuration w file_missing (init_session_state ss))
    as [ss1 [e | [|]]] eqn:Hcheck; cbn [fst snd]; try done.
  pose proof (create_sidebar_no_error_box inp) as Hsb.
  pose proof (create_sidebar_no_generator inp) as Hgen.
  destruct (create_sidebar inp)
    as [sidebar [e | [[[[topic concept] description] cfg] |]]] eqn:Hside;
    cbn [fst] in Hsb, Hgen; cbn [fst snd]; try done.
  destruct generate_clicked; [| done].
  apply check_api_configuration_true in Hcheck
    as (openrouter_key & cerebras_key & Hkeys & Hsome).
  apply create_sidebar_some in Hside as (_ & Hne & _).
  destruct (generate_learning_content_gated w topic concept description cfg _ _
              Hkeys Hsome Hne) as (llm & prompt & ->).
  destruct (reply_outcome w (request_of llm topic concept cfg prompt))
    as [e | content] eqn:Hout; cbn [fst snd]; [| done].
  intros _. exists (request_of llm topic concept cfg prompt), e.
  split; [| split; [exact Hout |]].
  - rewrite !generator_events_app, Hgen, generator_events_fmap. reflexivity.
  - rewrite !error_boxes_app, Hsb, error_boxes_generator. reflexivity.
Qed.

Lemma banner_differs (text : string) :
  api_required_title ≠ error_banner +:+ text.
Proof. discriminate. Qed.

(** X16: the two gates of [main] keep the generator's own two errors off the
    page: no run shows the missing-credentials or the empty-configuration
    error in an error box.  Whenever a run ends on a failed generation, one
    request had been sent and the page has exactly one error box; it shows
    the banner followed, when the LLM library raised on that request, by
    "Error in content generation: ", the text of that exception and the hint
    chosen by its words, and, when the reply to that request fails the check,
    by "Error in content generation: LLM returned empty or invalid
    response". *)
Theorem main_failure_is_after_request (w : World) (file_missing : bool)
    (inp : SidebarInput) (generate_clicked : bool) (ss : SessionState) :
  let r := main w file_missing inp generate_clicked ss in
  ((StOutput "error" (error_banner +:+ str_exc MissingCredentialsError) ∉ r.1.2) ∧
   (StOutput "error" (error_banner +:+ str_exc EmptyConfigurationError) ∉ r.1.2)) ∧
  (r.2 = inr ExitFailed →
   ∃ rq text,
     requests_in (generator_events r.1.2) = [rq] ∧
     (∀ shown, StOutput "error" shown ∈ r.1.2 ↔ shown = error_banner +:+ text) ∧
     ((∃ msg, llm_reply w rq = inl msg ∧
        text = "Error in content generation: " +:+ msg +:+ hint_for msg) ∨
      (∃ result, llm_reply w rq = inr result ∧
        (py_bool result = false ∨ hasattr result "pre_read" = false) ∧
        text = "Error in content generation: LLM returned empty or invalid response"))).
Proof.
  intros r.
  assert (r.2 = inr ExitFailed →
          ∃ rq text,
            requests_in (generator_events r.1.2) = [rq] ∧
            error_boxes r.1.2 = [error_banner +:+ text] ∧
            ((∃ msg, llm_reply w rq = inl msg ∧
               text = "Error in content generation: " +:+ msg +:+ hint_for msg) ∨
             (∃ result, llm_reply w rq = inr result ∧
               (py_bool result = false ∨ hasattr result "pre_read" = false) ∧
               text = "Error in content generation: LLM returned empty or invalid response")))
    as Hfailed.
  { intros Hexit.
    destruct (main_failed w file_missing inp generate_clicked ss Hexit)
      as (rq & e & Hone & Hout & Hbox). fold r in Hone, Hbox.
    exists rq, (str_exc e). split; [exact Hone |]. split; [exact Hbox |].
    unfold reply_outcome, accepted in Hout.
    destruct (llm_reply w rq) as [msg | result].
    - left. exists msg. split; [reflexivity |].
      injection Hout as <-. cbn [str_exc]. by rewrite error_message_hint.
    - right. exists result. split; [reflexivity |].
      destruct (py_bool result) eqn:Hb; [destruct (hasattr result "pre_read") eqn:Ha |].
      + done.
      + split; [by right |]. by injection Hout as <-.
      + split; [by left |]. by injection Hout as <-. }
  split.
  - assert (∀ text,
              text = str_exc MissingCredentialsError ∨
              text = str_exc EmptyConfigurationError →
              StOutput "error" (error_banner +:+ text) ∉ r.1.2) as Hnever.
    { intros text Htext Hin. apply elem_error_boxes in Hin.
      assert (r.2 = inr ExitFailed ∨ r.2 ≠ inr ExitFailed) as [Hexit | Hexit].
      { destruct r.2 as [e | []]; (by left) || (by right). }
      - destruct (Hfailed Hexit) as (rq & shown & _ & Hbox & Hshown).
        rewrite Hbox in Hin. apply list_elem_of_singleton in Hin.
        apply (inj (String.append error_banner)) in Hin.
        destruct Hshown as [(msg & _ & ->) | (result & _ & _ & ->)],
                 Htext as [-> | ->]; discriminate Hin.
      - destruct (main_not_failed w file_missing inp generate_clicked ss Hexit)
          as [Hbox | Hbox]; fold r in Hbox; rewrite Hbox in Hin.
        + by apply elem_of_nil in Hin.
        + apply list_elem_of_singleton in Hin. symmetry in Hin.
          by apply banner_differs in Hin. }
    split; apply Hnever; [by left | by right].
  - intros Hexit.
    destruct (Hfailed Hexit) as (rq & text & Hone & Hbox & Hshown).
    exists rq, text. split; [exact Hone |]. split; [| exact Hshown].
    intros shown. rewrite elem_error_boxes, Hbox. apply list_elem_of_singleton.
Qed.

Lemma main_failure_is_after_request_witness :
  let w := {| secrets := Some {["CEREBRAS_API_KEY" := "csk"]}; environ := ∅;
              llm_reply := λ _, inl "rate limit" |} in
  let r := main w true
             {| in_topic := "Psychology"; in_concept := "Growth Mindset";
                in_concept_description := "Why"; in_mcq := 1; in_true_false := 0;
                in_fill_blank := 0; in_matching := 0; in_ordering := 0 |}
             true
             {| generated_content := None; api_configured := None |} in
  StOutput "error" (error_banner +:+ "Error in content generation: rate limit") ∈ r.1.2.
Proof.
  intros w r.
  destruct (proj2 (main_failure_is_after_request w true
                     {| in_topic := "Psychology"; in_concept := "Growth Mindset";
                        in_concept_description := "Why"; in_mcq := 1;
                        in_true_false := 0; in_fill_blank := 0; in_matching := 0;
                        in_ordering := 0 |}
                     true {| generated_content := None; api_configured := None |}))
    as (rq & text & _ & Hbox & [(msg & Hreply & Htext) | (result & Hreply & _)]).
  - vm_compute. reflexivity.
  - cbn [llm_reply w] in Hreply. injection Hreply as <-.
    apply Hbox. rewrite Htext. reflexivity.
  - discriminate Hreply.
Defined.

(** X17: the setup check of [main] reads the secrets store only, while the
    generator falls back on the environment.  When the store's file is
    missing, a run of [main] stops at the setup page without calling the
    generator and leaves the session as initialised, even if the environment
    holds a key with which the generator itself would construct its client. *)
Theorem main_ignores_environment (w : World) (inp : SidebarInput)
    (generate_clicked : bool) (ss : SessionState) :
  secrets w = None →
  (main w true inp generate_clicked ss).2 = inr ExitSetup ∧
  (main w true inp generate_clicked ss).1.1 = init_session_state ss ∧
  generator_events (main w true inp generate_clicked ss).1.2 = [] ∧
  (∀ key topic concept concept_description question_config,
     environ w !! "OPENROUTER_API_KEY" = Some key → key ≠ "" →
     clients_in
       (generate_learning_content w topic concept concept_description
          question_config).1
     = [openrouter_llm key]).
Proof.
  intros Hnone. split; [| split; [| split]].
  - unfold main, check_api_configuration. by rewrite Hnone.
  - unfold main, check_api_configuration. by rewrite Hnone.
  - unfold main, check_api_configuration. by rewrite Hnone.
  - intros key topic concept concept_description question_config Hkey Hne.
    assert (get_api_key w = (key, default "" (environ w !! "CEREBRAS_API_KEY")))
      as Hkeys.
    { unfold get_api_key. by rewrite Hnone, Hkey. }
    destruct (generate_learning_content_shape w topic concept concept_description
                question_config _ _ Hkeys)
      as [(-> & _) | (llm & [[_ ->] | (-> & _)] & [-> | (rq & _ & ->)])];
      done.
Qed.

Lemma main_ignores_environment_witness :
  generator_events
    (main {| secrets := None; environ := {["OPENROUTER_API_KEY" := "sk-env"]};
             llm_reply := λ _, inr (PyContent empty_lesson) |}
       true
       {| in_topic := "Psychology"; in_concept := "Growth Mindset";
          in_concept_description := "Why"; in_mcq := 2; in_true_false := 2;
          in_fill_blank := 1; in_matching := 0; in_ordering := 0 |}
       true {| generated_content := None; api_configured := None |}).1.2 = [] ∧
  clients_in
    (generate_learning_content
       {| secrets := None; environ := {["OPENROUTER_API_KEY" := "sk-env"]};
          llm_reply := λ _, inr (PyContent empty_lesson) |}
       "Psychology" "Growth Mindset" "Why" None).1
  = [openrouter_llm "sk-env"].
Proof.
  destruct (main_ignores_environment
              {| secrets := None; environ := {["OPENROUTER_API_KEY" := "sk-env"]};
                 llm_reply := λ _, inr (PyContent empty_lesson) |}
              {| in_topic := "Psychology"; in_concept := "Growth Mindset";
                 in_concept_description := "Why"; in_mcq := 2; in_true_false := 2;
                 in_fill_blank := 1; in_matching := 0; in_ordering := 0 |}
              true {| generated_content := None; api_configured := None |} eq_refl)
    as (_ & _ & Hnone & Hclient).
  split; [exact Hnone |]. apply Hclient; [reflexivity | discriminate].
Defined.

(** X18: when the secrets store can be read, the setup check and the
    generator agree: the check answers false exactly when the generator
    raises the missing-credentials error; the check never raises then, and
    it records a positive answer in the session. *)
Theorem check_api_configuration_agrees (w : World) (file_missing : bool)
    (ss : SessionState) (store : gmap string string)
    (topic concept concept_description : string)
    (question_config : option QuestionConfig) :
  secrets w = Some store →
  let run :=
    generate_learning_content w topic concept concept_description question_config in
  ((check_api_configuration w file_missing ss).2 = inr false ↔
   run = ([], inl MissingCredentialsError)) ∧
  ((check_api_configuration w file_missing ss).2 = inr true ↔
   length (clients_in run.1) = 1%nat) ∧
  ((check_api_configuration w file_missing ss).2 = inr true →
   api_configured (check_api_configuration w file_missing ss).1 = Some true).
Proof.
  intros Hstore run.
  assert (get_api_key w = (default "" (store !! "OPENROUTER_API_KEY"),
                           default "" (store !! "CEREBRAS_API_KEY"))) as Hkeys.
  { unfold get_api_key. by rewrite Hstore. }
  unfold check_api_configuration. rewrite Hstore. cbv zeta.
  destruct (generate_learning_content_shape w topic concept concept_description
              question_config _ _ Hkeys)
    as [(Ho & Hc & Hrun) | (llm & Hllm & Hrun)]; fold run in Hrun.
  - rewrite Ho, Hc, Hrun. cbn. by repeat split.
  - assert (str_bool (default "" (store !! "OPENROUTER_API_KEY"))
            || str_bool (default "" (store !! "CEREBRAS_API_KEY")) = true) as ->.
    { destruct Hllm as [[Ho _] | (_ & Hc & _)].
      - apply str_bool_true in Ho. by rewrite Ho.
      - apply str_bool_true in Hc. rewrite Hc. apply orb_true_r. }
    cbn [fst snd api_configured].
    destruct Hrun as [-> | (rq & _ & ->)]; by repeat split.
Qed.

Lemma check_api_configuration_agrees_witness :
  (check_api_configuration
     {| secrets := Some {["CEREBRAS_API_KEY" := ""]};
        environ := {["CEREBRAS_API_KEY" := "csk-env"]};
        llm_reply := λ _, inr PyNone |}
     false {| generated_content := None; api_configured := None |}).2 = inr false.
Proof.
  apply (proj1 (check_api_configuration_agrees
                  {| secrets := Some {["CEREBRAS_API_KEY" := ""]};
                     environ := {["CEREBRAS_API_KEY" := "csk-env"]};
                     llm_reply := λ _, inr PyNone |}
                  false
                  {| generated_content := None; api_configured := None |}
                  {["CEREBRAS_API_KEY" := ""]} "Psychology" "Growth Mindset" "Why" None
                  eq_refl)).
  reflexivity.
Defined.

(** ** The tips of [main] and the hints of the generator *)

Lemma lower_cons_ascii (c : ascii) (s : string) :
  (nat_of_ascii c < 128)%nat →
  lower (String c s) = String (lower_ascii c) (lower s).
Proof.
  intros Hc.
  assert (is_byte 196 c = false) as H196.
  { unfold is_byte. apply Nat.eqb_neq. lia. }
  assert (is_byte 226 c = false) as H226.
  { unfold is_byte. apply Nat.eqb_neq. lia. }
  destruct s as [| c1 [| c2 s3]]; cbn [lower]; rewrite ?H196, ?H226; reflexivity.
Qed.

Lemma lower_app_ascii_l (a s : string) :
  ascii_only a = true → lower (a +:+ s) = lower a +:+ lower s.
Proof.
  induction a as [| c a IH]; [done |].
  cbn [ascii_only]. intros [Hc Ha]%andb_true_iff. apply Nat.ltb_lt in Hc.
  rewrite str_app_cons, !lower_cons_ascii by exact Hc.
  by rewrite str_app_cons, IH.
Qed.

(** Lowering a text followed by one that starts with an ASCII character:
    no character to lower lies across the seam. *)
Lemma lower_app_ascii_r (s h : string) :
  starts_ascii h = true → lower (s +:+ h) = lower s +:+ lower h.
Proof.
  intros Hh.
  assert (∀ n s, (String.length s ≤ n)%nat → lower (s +:+ h) = lower s +:+ lower h)
    as Hind; [| by apply (Hind (String.length s))].
  clear s. induction n as [| n IH]; intros s Hlen.
  { destruct s; [done | cbn in Hlen; lia]. }
  destruct s as [| c [| c1 s2]]; [done | |].
  - (* one character, then the seam *)
    change (String c "" +:+ h) with (String c h).
    destruct h as [| c' h']; [done |].
    cbn [starts_ascii] in Hh. apply Nat.ltb_lt in Hh.
    assert (is_byte 176 c' = false) as H176.
    { unfold is_byte. apply Nat.eqb_neq. lia. }
    assert (is_byte 132 c' = false) as H132.
    { unfold is_byte. apply Nat.eqb_neq. lia. }
    cbn [lower]. rewrite H176, H132, !andb_false_r.
    by destruct h' as [| c'' h''].
  - cbn [String.length] in Hlen.
    rewrite !str_app_cons.
    destruct (is_byte 196 c && is_byte 176 c1) eqn:Hdot.
    + assert (lower (String c (String c1 (s2 +:+ h)))
              = String "i" (String (ascii_of_nat 204) (String (ascii_of_nat 135)
                                                         (lower (s2 +:+ h))))) as ->.
      { cbn [lower]. by rewrite Hdot. }
      assert (lower (String c (String c1 s2))
              = String "i" (String (ascii_of_nat 204) (String (ascii_of_nat 135)
                                                         (lower s2)))) as ->.
      { cbn [lower]. by rewrite Hdot. }
      rewrite !str_app_cons, IH by lia. reflexivity.
    + destruct s2 as [| c2 s3].
      * (* two characters, then the seam *)
        change ("" +:+ h) with h.
        assert (lower (String c (String c1 "")) = String (lower_ascii c) (lower (String c1 "")))
          as ->.
        { cbn [lower]. by rewrite Hdot. }
        rewrite str_app_cons, <- (IH (String c1 "")) by (cbn; lia).
        change (String c1 "" +:+ h) with (String c1 h).
        destruct h as [| c' h']; [cbn [lower]; by rewrite Hdot |].
        cbn [starts_ascii] in Hh. apply Nat.ltb_lt in Hh.
        assert (is_byte 170 c' = false) as H170.
        { unfold is_byte. apply Nat.eqb_neq. lia. }
        cbn [lower]. by rewrite Hdot, H170, !andb_false_r.
      * rewrite str_app_cons.
        destruct (is_byte 226 c && is_byte 132 c1 && is_byte 170 c2) eqn:Hkelvin.
        -- assert (lower (String c (String c1 (String c2 (s3 +:+ h))))
                   = String "k" (lower (s3 +:+ h))) as ->.
           { cbn [lower]. by rewrite Hdot, Hkelvin. }
           assert (lower (String c (String c1 (String c2 s3))) = String "k" (lower s3))
             as ->.
           { cbn [lower]. by rewrite Hdot, Hkelvin. }
           rewrite str_app_cons, IH by (cbn in Hlen; lia). reflexivity.
        -- assert (lower (String c (String c1 (String c2 (s3 +:+ h))))
                   = String (lower_ascii c) (lower (String c1 (String c2 (s3 +:+ h)))))
             as ->.
           { cbn [lower]. by rewrite Hdot, Hkelvin. }
           assert (lower (String c (String c1 (String c2 s3)))
                   = String (lower_ascii c) (lower (String c1 (String c2 s3)))) as ->.
           { cbn [lower]. by rewrite Hdot, Hkelvin. }
           rewrite str_app_cons.
           rewrite <- (IH (String c1 (String c2 s3))) by (cbn in Hlen |- *; lia).
           by rewrite !str_app_cons.
Qed.

(** X19: the tip under the error box follows the hint the generator put in
    its message.  A message that got the formatting hint brings the
    formatting tip; a message that got the API hint brings the formatting tip
    or the API-key tip, never the tip about the internet connection. *)
Theorem error_tip_follows_hint (cause : exception) :
  (str_in "validation error" (lower (str_exc cause)) = true →
   error_tip (Exception (error_message cause)) = tip_format) ∧
  (str_in "validation error" (lower (str_exc cause)) = false →
   str_in "api" (lower (str_exc cause)) = true →
   error_tip (Exception (error_message cause)) = tip_format ∨
   error_tip (Exception (error_message cause)) = tip_api_key).
Proof.
  split.
  - intros Hv. unfold error_tip, error_message. rewrite Hv. cbn [str_exc].
    assert (str_in "validation error"
              (lower (("Error in content generation: " +:+ str_exc cause)
                      +:+ String (ascii_of_nat 10) (String (ascii_of_nat 10) "")
                      +:+ "This usually means the LLM didn't return properly formatted content. "
                      +:+ "Please check your API key and try again.")) = true) as ->;
      [| reflexivity].
    apply str_in_contains.
    rewrite lower_app_ascii_r, lower_app_ascii_l by reflexivity.
    apply contains_app_l, contains_app_r. by apply str_in_contains.
  - intros Hv Ha. unfold error_tip, error_message. rewrite Hv, Ha. cbn [str_exc].
    clear Hv.
    assert (str_in "api"
              (lower (("Error in content generation: " +:+ str_exc cause)
                      +:+ String (ascii_of_nat 10) (String (ascii_of_nat 10) "")
                      +:+ "This appears to be an API-related error. "
                      +:+ "Please check your API key and internet connection.")) = true) as ->.
    { apply str_in_contains.
      rewrite lower_app_ascii_r, lower_app_ascii_l by reflexivity.
      apply contains_app_l, contains_app_r. by apply str_in_contains. }
    cbn [orb].
    match goal with
    | |- context [str_in "validation error" ?text] =>
        destruct (str_in "validation error" text)
    end; [by left | by right].
Qed.

Lemma error_tip_follows_hint_witness :
  error_tip (Exception (error_message (LibraryError "3 Validation Errors for BiteSizedContent")))
  = tip_format.
Proof.
  apply error_tip_follows_hint. vm_compute. reflexivity.
Defined.

(** X20: when the reply of the LLM library fails the check (a falsy object,
    or one without [pre_read]), a run of [main] in which the button was
    pressed ends on the failure, shows "Error in content generation: LLM
    returned empty or invalid response" after the banner, and gives the tip
    about the internet connection. *)
Theorem main_empty_response (w : World) (file_missing : bool) (inp : SidebarInput)
    (ss : SessionState) :
  (∀ rq result, llm_reply w rq = inr result → accepted result = false) →
  (∀ rq msg, llm_reply w rq ≠ inl msg) →
  let r := main w file_missing inp true ss in
  requests_in (generator_events r.1.2) ≠ [] →
  r.2 = inr ExitFailed ∧
  StOutput "error"
    (error_banner +:+ "Error in content generation: LLM returned empty or invalid response")
  ∈ r.1.2 ∧
  StOutput "info" tip_connection ∈ r.1.2.
Proof.
  intros Hbad Hreply r Hsent.
  destruct (main_cases w file_missing inp true ss)
    as [(Hnone & _) |
        (_ & ss1 & sidebar & cfg & Hcheck & Hside & Hevents & Hrun)];
    fold r in Hnone || fold r in Hevents, Hrun.
  - by rewrite Hnone in Hsent.
  - apply check_api_configuration_true in Hcheck
      as (openrouter_key & cerebras_key & Hkeys & Hsome).
    apply create_sidebar_some in Hside as (_ & Hne & _).
    destruct (generate_learning_content_gated w (in_topic inp) (in_concept inp)
                (in_concept_description inp) cfg _ _ Hkeys Hsome Hne)
      as (llm & prompt & Hgen).
    rewrite Hgen in Hrun. cbn [fst snd] in Hrun. unfold reply_outcome in Hrun.
    destruct (llm_reply w (request_of llm (in_topic inp) (in_concept inp) cfg prompt))
      as [msg | result] eqn:Hr; [by destruct (Hreply _ _ Hr) |].
    rewrite (Hbad _ _ Hr) in Hrun.
    destruct Hrun as [(content & Hc & _) | (e & He & Hexit & _ & Herr & Htip)];
      [done |].
    injection He as <-. split; [exact Hexit |]. split; [exact Herr | exact Htip].
Qed.

Lemma main_empty_response_witness :
  (main {| secrets := Some {["OPENROUTER_API_KEY" := "sk-or"]}; environ := ∅;
           llm_reply := λ _, inr PyNone |}
     true
     {| in_topic := "Psychology"; in_concept := "Growth Mindset";
        in_concept_description := "Why"; in_mcq := 1; in_true_false := 0;
        in_fill_blank := 0; in_matching := 0; in_ordering := 0 |}
     true {| generated_content := None; api_configured := None |}).2
  = inr ExitFailed.
Proof.
  apply main_empty_response.
  - intros rq result Hr. injection Hr as <-. reflexivity.
  - intros rq msg Hr. discriminate Hr.
  - vm_compute. discriminate.
Defined.

(** ** The two characters whose lower case holds an ASCII letter *)

(** The capital I with a dot above lowers to an i (and a combining dot): a
    message that spells API with it gets the API hint of the handler. *)
Example lower_dotted_capital_i :
  str_in "api" (lower "APİ down") = true ∧
  error_message (LibraryError "APİ down")
  = "Error in content generation: APİ down" +:+ api_hint.
Proof. split; vm_compute; reflexivity. Qed.

(** The Kelvin sign lowers to a k: a message that spells KEY with it gets
    the tip about the API key. *)
Example lower_kelvin_sign :
  lower "bad KEY" = "bad key" ∧
  error_tip (Exception "bad KEY")
  = "💡 **Tip**: Check your API key configuration in `.streamlit/secrets.toml`".
Proof. split; vm_compute; reflexivity. Qed.
